(** * The toy bank of [script.js]: registration, login, dashboard, transfers
    and the admin listing, over the browser's [localStorage].

    The script is a handful of event handlers over two [localStorage] keys.
    Each handler is embedded as a function over an explicit storage (and, for
    the dashboard, over the in-memory [users] object that the page keeps in a
    closure), returning what the handler did last: a navigation, a message
    written into the page's error element, or the exception that escaped.

    What the browser supplies is taken as follows.
    - JavaScript strings are sequences of UTF-16 code units: [list N].
    - Numbers are IEEE 754 binary64 values: [spec_float] at precision 53 and
      [emax = 1024], with the arithmetic of [SpecFloat].
    - [Math.random()], [new Date().toLocaleString()] and the value that
      [parseFloat] made of the amount field are inputs of the handlers.
    - A stored string is represented by what [JSON.parse] makes of it. *)

From Stdlib Require Import ZArith NArith List Bool String Ascii Lia SpecFloat.
From stdpp Require Import base option list gmap fin_maps.

Local Open Scope Z_scope.

(** ** Strings *)

Abbreviation jsstring := (list N).

(** The code units of an ASCII literal. *)
Definition js (s : string) : jsstring :=
  List.map N_of_ascii (list_ascii_of_string s).

(** [WhiteSpace] and [LineTerminator] code units, as [String.prototype.trim]
    strips them. *)
Definition is_white_space (c : N) : bool :=
  ((9 <=? c) && (c <=? 13) || (c =? 32) || (c =? 160) || (c =? 5760)
   || (8192 <=? c) && (c <=? 8202) || (c =? 8232) || (c =? 8233)
   || (c =? 8239) || (c =? 8287) || (c =? 12288) || (c =? 65279))%N.

Fixpoint trim_start (s : jsstring) : jsstring :=
  match s with
  | c :: s' => if is_white_space c then trim_start s' else s
  | [] => []
  end.

Definition trim (s : jsstring) : jsstring :=
  rev (trim_start (rev (trim_start s))).

(** ** Exceptions and results *)

Inductive exn :=
  | SyntaxError             (* JSON.parse on text that is not JSON *)
  | InvalidCharacterError   (* btoa on a code unit above 255 *)
  | TypeError.              (* property access on undefined *)

Inductive result (A : Type) :=
  | Ok (a : A)
  | Throw (e : exn).
Arguments Ok {A} a.
Arguments Throw {A} e.

Definition bind {A B} (r : result A) (k : A -> result B) : result B :=
  match r with
  | Ok a => k a
  | Throw e => Throw e
  end.

(** ** [btoa]: base64 of a Latin-1 string *)

Definition base64_alphabet : jsstring :=
  js "ABCDEFGHIJKLMNOPQRSTUVWXYZabcdefghijklmnopqrstuvwxyz0123456789+/".

Definition base64_digit (i : N) : N :=
  nth (N.to_nat i) base64_alphabet 61%N.

Definition pad : N := 61%N.   (* '=' *)

Fixpoint base64 (s : jsstring) : jsstring :=
  match s with
  | [] => []
  | [a] =>
      [base64_digit (a / 4); base64_digit (a mod 4 * 16); pad; pad]%N
  | [a; b] =>
      [base64_digit (a / 4); base64_digit (a mod 4 * 16 + b / 16);
       base64_digit (b mod 16 * 4); pad]%N
  | a :: b :: c :: rest =>
      (base64_digit (a / 4) :: base64_digit (a mod 4 * 16 + b / 16)
       :: base64_digit (b mod 16 * 4 + c / 64) :: base64_digit (c mod 64)
       :: base64 rest)%N
  end.

Definition btoa (s : jsstring) : result jsstring :=
  if forallb (fun c => (c <=? 255)%N) s then Ok (base64 s)
  else Throw InvalidCharacterError.

(** ** Numbers *)

Abbreviation number := spec_float.

Definition prec : Z := 53.
Definition emax : Z := 1024.

(** The double of an integer literal. *)
Definition of_Z (z : Z) : number := binary_normalize prec emax z 0 false.

Definition is_nan (x : number) : bool :=
  match x with S754_nan => true | _ => false end.

Definition is_finite (x : number) : bool :=
  match x with S754_zero _ | S754_finite _ _ _ => true | _ => false end.

(** [Math.floor]. A finite double with a non-negative exponent is an integer
    already; otherwise the mantissa is shifted down, towards minus infinity. *)
Definition Math_floor (x : number) : number :=
  match x with
  | S754_finite s m e =>
      if 0 <=? e then x
      else
        let q := Z.shiftr (cond_Zopp s (Z.pos m)) (- e) in
        binary_normalize prec emax q 0 s
  | _ => x
  end.

(** The values a balance or an amount can hold once a store went through
    JSON: a number or [null]. *)
Inductive jsval :=
  | VNull
  | VNum (x : number).

Definition ToNumber (v : jsval) : number :=
  match v with
  | VNull => S754_zero false
  | VNum x => x
  end.

Definition js_sub (a b : jsval) : jsval :=
  VNum (SFsub prec emax (ToNumber a) (ToNumber b)).
Definition js_add (a b : jsval) : jsval :=
  VNum (SFadd prec emax (ToNumber a) (ToNumber b)).
Definition js_lt (a b : jsval) : bool := SFltb (ToNumber a) (ToNumber b).
Definition js_le (a b : jsval) : bool := SFleb (ToNumber a) (ToNumber b).
Definition isNaN (a : jsval) : bool := is_nan (ToNumber a).

(** ** The data model *)

Inductive tx_type := credit | debit.

Record transaction := {
  type : tx_type;
  amount : jsval;
  date : jsstring;
  desc : jsstring
}.

Record user := {
  password : jsstring;
  balance : jsval;
  transactions : list transaction
}.

#[global] Instance tx_type_eq_dec : EqDecision tx_type.
Proof. solve_decision. Defined.
#[global] Instance spec_float_eq_dec : EqDecision spec_float.
Proof. solve_decision. Defined.
#[global] Instance jsval_eq_dec : EqDecision jsval.
Proof. solve_decision. Defined.
#[global] Instance transaction_eq_dec : EqDecision transaction.
Proof. solve_decision. Defined.
#[global] Instance user_eq_dec : EqDecision user.
Proof. solve_decision. Defined.

(** The [users] object: own properties keyed by username. *)
Abbreviation users_map := (gmap jsstring user).

(** The property names every plain object inherits from [Object.prototype]
    (the standard ones and those of Annex B). Their values are functions, or
    [Object.prototype] itself for [__proto__]: all truthy, none with a
    [password], [balance] or [transactions] property. *)
Definition Object_prototype_names : list jsstring :=
  List.map js
    ["constructor"; "hasOwnProperty"; "isPrototypeOf"; "propertyIsEnumerable";
     "toLocaleString"; "toString"; "valueOf"; "__proto__";
     "__defineGetter__"; "__defineSetter__"; "__lookupGetter__";
     "__lookupSetter__"]%string.

(** What [users[k]] evaluates to. *)
Inductive property :=
  | Own (u : user)     (* a user record *)
  | Inherited          (* a built-in found on the prototype chain *)
  | Undefined.

Definition get (users : users_map) (k : jsstring) : property :=
  match users !! k with
  | Some u => Own u
  | None =>
      if bool_decide (k ∈ Object_prototype_names) then Inherited else Undefined
  end.

Definition truthy (p : property) : bool :=
  match p with Undefined => false | _ => true end.

(** ** [localStorage] and JSON

    A stored string is one of: a JSON text, given by the value [JSON.parse]
    returns for it; the empty string; a non-empty string that is not JSON. *)
Inductive text (A : Type) :=
  | Json (v : A)
  | EmptyString
  | NotJson.
Arguments Json {A} v.
Arguments EmptyString {A}.
Arguments NotJson {A}.

Record localStorage := {
  bank_users : option (text users_map);            (* USERS_KEY *)
  bank_session : option (text (option jsstring))   (* SESSION_KEY *)
}.

(** [localStorage.getItem(key) || fallback]: [null] and the empty string are
    falsy. *)
Definition getItem_or {A} (item : option (text A)) (fallback : text A) : text A :=
  match item with
  | None | Some EmptyString => fallback
  | Some t => t
  end.

Definition JSON_parse {A} (t : text A) : result A :=
  match t with
  | Json v => Ok v
  | EmptyString | NotJson => Throw SyntaxError
  end.

(** [JSON.stringify] followed by [JSON.parse]: a number that is not finite is
    written as [null], and a zero is written as [0] whatever its sign. *)
Definition json_number (v : jsval) : jsval :=
  match v with
  | VNum (S754_finite s m e) => v
  | VNum (S754_zero _) => VNum (S754_zero false)
  | VNum (S754_infinity _) | VNum S754_nan | VNull => VNull
  end.

Definition json_transaction (t : transaction) : transaction :=
  {| type := type t; amount := json_number (amount t);
     date := date t; desc := desc t |}.

Definition json_user (u : user) : user :=
  {| password := password u; balance := json_number (balance u);
     transactions := json_transaction <$> transactions u |}.

Definition JSON_stringify_users (users : users_map) : text users_map :=
  Json (json_user <$> users).

Definition getUsers (ls : localStorage) : result users_map :=
  JSON_parse (getItem_or (bank_users ls) (Json ∅)).

Definition setUsers (users : users_map) (ls : localStorage) : localStorage :=
  {| bank_users := Some (JSON_stringify_users users);
     bank_session := bank_session ls |}.

Definition getSession (ls : localStorage) : result (option jsstring) :=
  JSON_parse (getItem_or (bank_session ls) (Json None)).

Definition setSession (username : jsstring) (ls : localStorage) : localStorage :=
  {| bank_users := bank_users ls;
     bank_session := Some (Json (Some username)) |}.

Definition clearSession (ls : localStorage) : localStorage :=
  {| bank_users := bank_users ls; bank_session := None |}.

Definition ADMIN_PASSWORD : jsstring := js "SuperSecretAdmin123".

(** ** What a handler did last *)

Inductive outcome :=
  | Navigate (url : string)                 (* window.location = url *)
  | Reload                                  (* window.location.reload() *)
  | ShowError (msg : string)                (* errorDiv.textContent = msg *)
  | Listed (rows : list (jsstring * jsval)) (* the admin's user list *)
  | Uncaught (e : exn)                      (* the handler threw *)
  | NoHandler.                              (* the form is not on the page *)

(** ** Registration *)

Definition registerForm_onsubmit
    (username_field password_ confirm : jsstring)
    (random : number) (now : jsstring)
    (ls : localStorage) : outcome * localStorage :=
  let username := trim username_field in
  if bool_decide (password_ ≠ confirm) then
    (ShowError "Passwords do not match.", ls)
  else
    match getUsers ls with
    | Throw e => (Uncaught e, ls)
    | Ok users =>
        if truthy (get users username) then
          (ShowError "Username already exists.", ls)
        else
          match btoa password_ with
          | Throw e => (Uncaught e, ls)
          | Ok encoded =>
              let record :=
                {| password := encoded;
                   balance :=
                     VNum (SFadd prec emax (of_Z 1000)
                             (Math_floor (SFmul prec emax random (of_Z 9000))));
                   transactions :=
                     [ {| type := credit; amount := VNum (of_Z 1000);
                          date := now; desc := js "Initial deposit" |} ] |} in
              let users := <[username := record]> users in
              (Navigate "dashboard.html", setSession username (setUsers users ls))
          end
    end.

(** The record [registerForm.onsubmit] writes for a password that encodes
    to [encoded]. *)
Definition new_record (encoded : jsstring) (random : number) (now : jsstring) : user :=
  {| password := encoded;
     balance := VNum (SFadd prec emax (of_Z 1000)
                        (Math_floor (SFmul prec emax random (of_Z 9000))));
     transactions := [ {| type := credit; amount := VNum (of_Z 1000);
                          date := now; desc := js "Initial deposit" |} ] |}.

(** ** Login *)

Definition loginForm_onsubmit
    (username_field password_ : jsstring)
    (ls : localStorage) : outcome * localStorage :=
  let username := trim username_field in
  match getUsers ls with
  | Throw e => (Uncaught e, ls)
  | Ok users =>
      match get users username with
      | Undefined => (ShowError "Invalid username or password.", ls)
      | Inherited =>
          (* [users[username].password] is [undefined]; the right operand of
             [!==] is evaluated all the same *)
          match btoa password_ with
          | Throw e => (Uncaught e, ls)
          | Ok _ => (ShowError "Invalid username or password.", ls)
          end
      | Own u =>
          match btoa password_ with
          | Throw e => (Uncaught e, ls)
          | Ok encoded =>
              if bool_decide (password u ≠ encoded) then
                (ShowError "Invalid username or password.", ls)
              else (Navigate "dashboard.html", setSession username ls)
          end
      end
  end.

(** ** Dashboard

    Loading [dashboard.html] reads the session and the store once; the
    handlers it installs close over that [users] object and that [session]. *)

Record page := {
  page_users : users_map;
  page_session : jsstring
}.

(** What the page shows: the list items stand for the lines rendered from
    them, in display order. *)
Record view := {
  user_name : jsstring;
  account_balance : jsval;
  transaction_list : list transaction
}.

Inductive loaded :=
  | Redirected (url : string)
  | Rendered (pg : page) (v : view)
  | Crashed (e : exn).

Definition dashboard (ls : localStorage) : loaded :=
  match getSession ls with
  | Throw e => Crashed e
  | Ok None | Ok (Some []) => Redirected "index.html"
  | Ok (Some session) =>
      match getUsers ls with
      | Throw e => Crashed e
      | Ok users =>
          match get users session with
          | Own u =>
              Rendered {| page_users := users; page_session := session |}
                       {| user_name := session;
                          account_balance := balance u;
                          transaction_list := rev (transactions u) |}
          | Inherited | Undefined => Crashed TypeError
          end
      end
  end.

Definition logout_btn_onclick (ls : localStorage) : outcome * localStorage :=
  (Navigate "index.html", clearSession ls).

(** ** Transfer *)

Definition set_balance (b : jsval) (u : user) : user :=
  {| password := password u; balance := b; transactions := transactions u |}.

Definition push (t : transaction) (u : user) : user :=
  {| password := password u; balance := balance u;
     transactions := transactions u ++ [t] |}.

Definition transferForm_onsubmit
    (to_field : jsstring) (amount_ : number) (now : jsstring)
    (pg : page) (ls : localStorage) : outcome * page * localStorage :=
  let users := page_users pg in
  let session := page_session pg in
  let with_users us := {| page_users := us; page_session := session |} in
  let to := trim to_field in
  if negb (truthy (get users to)) then
    (ShowError "Recipient not found.", pg, ls)
  else if bool_decide (to = session) then
    (ShowError "Cannot transfer to yourself.", pg, ls)
  else if SFleb amount_ (of_Z 0) || is_nan amount_ then
    (ShowError "Invalid amount.", pg, ls)
  else
    match get users session with
    | Undefined => (Uncaught TypeError, pg, ls)
    | Inherited =>
        (* the sender's balance is [undefined]: the comparison is false, the
           recipient is credited, and the first [push] throws *)
        match get users to with
        | Own r =>
            let users := <[to := set_balance (js_add (balance r) (VNum amount_)) r]> users in
            (Uncaught TypeError, with_users users, ls)
        | _ => (Uncaught TypeError, pg, ls)
        end
    | Own s =>
        if js_lt (balance s) (VNum amount_) then
          (ShowError "Insufficient funds.", pg, ls)
        else
          let s := set_balance (js_sub (balance s) (VNum amount_)) s in
          let users := <[session := s]> users in
          match get users to with
          | Own r =>
              let r := set_balance (js_add (balance r) (VNum amount_)) r in
              let users := <[to := r]> users in
              let s := push {| type := debit; amount := VNum amount_; date := now;
                               desc := js "Transfer to " ++ to |} s in
              let users := <[session := s]> users in
              let r := push {| type := credit; amount := VNum amount_; date := now;
                               desc := js "Transfer from " ++ session |} r in
              let users := <[to := r]> users in
              (Reload, with_users users, setUsers users ls)
          | _ =>
              (* a built-in: its [balance] becomes NaN, the debit is pushed,
                 and [users[to].transactions] is [undefined] *)
              let s := push {| type := debit; amount := VNum amount_; date := now;
                               desc := js "Transfer to " ++ to |} s in
              let users := <[session := s]> users in
              (Uncaught TypeError, with_users users, ls)
          end
    end.

(** The two entries a transfer appends. *)
Definition debit_entry (to : jsstring) (amount_ : number) (now : jsstring) : transaction :=
  {| type := debit; amount := VNum amount_; date := now;
     desc := js "Transfer to " ++ to |}.

Definition credit_entry (session : jsstring) (amount_ : number) (now : jsstring) : transaction :=
  {| type := credit; amount := VNum amount_; date := now;
     desc := js "Transfer from " ++ session |}.

(** ** Admin panel *)

Definition adminForm_onsubmit (pass : jsstring) (ls : localStorage) : outcome :=
  if bool_decide (pass ≠ ADMIN_PASSWORD) then
    ShowError "Incorrect admin password."
  else
    match getUsers ls with
    | Throw e => Uncaught e
    | Ok users => Listed (prod_map id balance <$> map_to_list users)
    end.

(** ** The browser tab

    The storage, and the dashboard's closure when the dashboard is the
    current page and its script ran through. *)

Record world := {
  storage : localStorage;
  dash : option page
}.

Inductive event :=
  | Register (username password_ confirm : jsstring) (random : number) (now : jsstring)
  | Login (username password_ : jsstring)
  | OpenDashboard
  | Transfer (to : jsstring) (amount_ : number) (now : jsstring)
  | Logout
  | AdminLogin (pass : jsstring).

Definition open_dashboard (ls : localStorage) : option page :=
  match dashboard ls with
  | Rendered pg _ => Some pg
  | _ => None
  end.

(** After a navigation to [dashboard.html] or a reload the dashboard script
    runs anew; after a message or an exception the page stays as it is. *)
Definition step (w : world) (ev : event) : outcome * world :=
  match ev with
  | Register u p c random now =>
      let '(out, ls) := registerForm_onsubmit u p c random now (storage w) in
      (out, {| storage := ls;
               dash := match out with
                       | Navigate _ => open_dashboard ls
                       | _ => dash w
                       end |})
  | Login u p =>
      let '(out, ls) := loginForm_onsubmit u p (storage w) in
      (out, {| storage := ls;
               dash := match out with
                       | Navigate _ => open_dashboard ls
                       | _ => dash w
                       end |})
  | OpenDashboard =>
      match dashboard (storage w) with
      | Rendered pg _ => (Navigate "dashboard.html", {| storage := storage w; dash := Some pg |})
      | Redirected url => (Navigate url, {| storage := storage w; dash := None |})
      | Crashed e => (Uncaught e, {| storage := storage w; dash := None |})
      end
  | Transfer to amount_ now =>
      match dash w with
      | None => (NoHandler, w)
      | Some pg =>
          let '(out, pg, ls) := transferForm_onsubmit to amount_ now pg (storage w) in
          (out, {| storage := ls;
                   dash := match out with
                           | Reload => open_dashboard ls
                           | _ => Some pg
                           end |})
      end
  | Logout =>
      match dash w with
      | None => (NoHandler, w)
      | Some _ =>
          let '(out, ls) := logout_btn_onclick (storage w) in
          (out, {| storage := ls; dash := None |})
      end
  | AdminLogin pass =>
      (adminForm_onsubmit pass (storage w), {| storage := storage w; dash := None |})
  end.

Fixpoint run (w : world) (evs : list event) : list outcome * world :=
  match evs with
  | [] => ([], w)
  | ev :: evs =>
      let '(out, w) := step w ev in
      let '(outs, w) := run w evs in
      (out :: outs, w)
  end.


(** ** Totals

    Every finite double is a whole number of units of [2^-1074], so sums of
    balances can be taken exactly, in [Z]. [null] counts as zero, as
    [ToNumber] has it. *)

Definition units (x : number) : Z :=
  match x with
  | S754_finite s m e => cond_Zopp s (Z.shiftl (Z.pos m) (e + 1074))
  | _ => 0
  end.

Definition balance_units (u : user) : Z := units (ToNumber (balance u)).

Definition sum_balances (users : users_map) : Z :=
  map_fold (fun _ u acc => balance_units u + acc) 0 users.

(** The sum as a script would take it, with the double addition. *)
Definition float_sum (users : users_map) : number :=
  map_fold (fun _ u acc => SFadd prec emax acc (ToNumber (balance u))) (of_Z 0) users.

(** The users a storage holds; none when the text does not parse. *)
Definition stored (ls : localStorage) : users_map :=
  match getUsers ls with
  | Ok users => users
  | Throw _ => ∅
  end.

(** The subtraction and the addition of a transfer lose nothing. *)
Definition exact_transfer (w : world) (to : jsstring) (amount_ : number) : bool :=
  match dash w with
  | Some pg =>
      match page_users pg !! page_session pg, page_users pg !! trim to with
      | Some s, Some r =>
          let s' := SFsub prec emax (ToNumber (balance s)) amount_ in
          let r' := SFadd prec emax (ToNumber (balance r)) amount_ in
          is_finite s' && is_finite r'
          && (units s' =? units (ToNumber (balance s)) - units amount_)
          && (units r' =? units (ToNumber (balance r)) + units amount_)
      | _, _ => false
      end
  | None => false
  end.

Definition transfer_event (t : jsstring * number * jsstring) : event :=
  let '(to, amount_, now) := t in Transfer to amount_ now.

Fixpoint exact_transfers (w : world) (ts : list (jsstring * number * jsstring)) : bool :=
  match ts with
  | [] => true
  | (to, amount_, now) :: ts =>
      exact_transfer w to amount_
      && exact_transfers (snd (step w (Transfer to amount_ now))) ts
  end.

(** ** Invariants of the tab *)

(** The dashboard's [users] is what the storage holds. *)
Definition synced (w : world) : Prop :=
  forall pg, dash w = Some pg -> getUsers (storage w) = Ok (page_users pg).

(** Every record of [old] is in [new], with its transactions as a prefix. *)
Definition appended (old new : users_map) : Prop :=
  forall k u, old !! k = Some u ->
    exists u', new !! k = Some u' /\
               password u' = password u /\
               transactions u `prefix_of` transactions u'.

(** The stored users are as [JSON.stringify] writes them. *)
Definition canonical (ls : localStorage) : Prop :=
  json_user <$> stored ls = stored ls.

Definition append_inv (w : world) : Prop :=
  canonical (storage w) /\
  forall pg, dash w = Some pg -> appended (stored (storage w)) (page_users pg).

(** The conditions under which no handler throws.
    - [parseable]: neither key holds a non-empty string that is not JSON.
      With the typing of [localStorage] this says: the users key is absent,
      empty, or the JSON of an object of user records; the session key is
      absent, empty, or the JSON of a string or of [null].
    - [session_known]: a non-empty stored session names a user with a
      record in the store.
    - [sane] adds, when the dashboard is the loaded page, that the page's
      session user has a record in the page's [users] object, and that this
      object has a record for every stored user: a successful transfer
      writes the page's object over the store, and must not drop the user
      the stored session names. *)
Definition parseable (ls : localStorage) : Prop :=
  bank_users ls ≠ Some NotJson /\ bank_session ls ≠ Some NotJson.

Definition session_known (ls : localStorage) : Prop :=
  forall name, getSession ls = Ok (Some name) -> name ≠ [] ->
    is_Some (stored ls !! name).

Definition sane (w : world) : Prop :=
  parseable (storage w) /\ session_known (storage w) /\
  (forall pg, dash w = Some pg ->
     is_Some (page_users pg !! page_session pg) /\
     forall k, is_Some (stored (storage w) !! k) -> is_Some (page_users pg !! k)).

Definition latin1 (s : jsstring) : Prop := Forall (fun c => (c <= 255)%N) s.


Definition uncaught (out : outcome) : bool :=
  match out with Uncaught _ => true | _ => false end.

(** ** Sample data *)

Definition empty_storage : localStorage :=
  {| bank_users := None; bank_session := None |}.

Definition corrupt_storage : localStorage :=
  {| bank_users := Some NotJson; bank_session := None |}.

(** [Math.random()] returning 0.5 and 0.25. *)
Definition random_half : number := SFdiv prec emax (of_Z 1) (of_Z 2).

(** [parseFloat("0.3")]. *)
Definition three_tenths : number := SFdiv prec emax (of_Z 3) (of_Z 10).

Definition noon : jsstring := js "1/1/2024, 12:00:00 PM".

Definition account (pw : string) (b : Z) : user :=
  {| password := js pw; balance := VNum (of_Z b);
     transactions := [ {| type := credit; amount := VNum (of_Z 1000);
                          date := noon; desc := js "Initial deposit" |} ] |}.

(** alice holds 1000 and bob 3000; alice is logged in. *)
Definition two_users : users_map :=
  <[js "alice" := account "YQ==" 1000]> (<[js "bob" := account "Yg==" 3000]> ∅).

Definition two_users_storage : localStorage :=
  {| bank_users := Some (Json two_users);
     bank_session := Some (Json (Some (js "alice"))) |}.

Definition alice_dashboard : world :=
  {| storage := two_users_storage;
     dash := Some {| page_users := two_users; page_session := js "alice" |} |}.

(** ** Auxiliary notions for the arithmetic of doubles *)

(** What [k] right shifts keep of a mantissa [M]: the shifted mantissa is at
    most [M / 2^k], and the round bit is set only if at least half a unit
    was shifted out. *)
Definition good (M k : Z) (mrs : shr_record) : Prop :=
  0 <= shr_m mrs /\ shr_m mrs * 2 ^ k <= M /\
  (shr_r mrs = true -> (2 * shr_m mrs + 1) * 2 ^ k <= 2 * M).

(** The registration balance [1000 + q], checked on one [q]: the addition
    is exact, the sum is a finite non-zero double, and it compares as
    within 1000 and 9999. *)
Definition initial_balance_ok (q : nat) : bool :=
  let b := SFadd prec emax (of_Z 1000) (of_Z (Z.of_nat q)) in
  bool_decide (b = of_Z (1000 + Z.of_nat q))
  && match b with S754_finite _ _ _ => true | _ => false end
  && SFleb (of_Z 1000) b && SFleb b (of_Z 9999).

(** ** Decoding base64

    The script never decodes; the decoder is here to state that the stored
    password gives the password back. *)

Definition base64_index (c : N) : N :=
  (if (65 <=? c) && (c <=? 90) then c - 65
   else if (97 <=? c) && (c <=? 122) then c - 71
   else if (48 <=? c) && (c <=? 57) then c + 4
   else if c =? 43 then 62
   else 63)%N.

Fixpoint base64_decode (s : jsstring) : jsstring :=
  match s with
  | c1 :: c2 :: c3 :: c4 :: rest =>
      let d1 := base64_index c1 in
      let d2 := base64_index c2 in
      let d3 := base64_index c3 in
      let d4 := base64_index c4 in
      (if c3 =? pad then [d1 * 4 + d2 / 16]
       else if c4 =? pad then [d1 * 4 + d2 / 16; d2 mod 16 * 16 + d3 / 4]
       else (d1 * 4 + d2 / 16) :: (d2 mod 16 * 16 + d3 / 4)
            :: (d3 mod 4 * 64 + d4) :: base64_decode rest)%N
  | _ => []
  end.

Definition base64_digit_ok (i : nat) : bool :=
  let c := base64_digit (N.of_nat i) in
  (base64_index c =? N.of_nat i)%N && negb (c =? pad)%N.

(** ** Signs *)

(** A double that is zero or above, or plus infinity. *)
Definition not_negative (x : number) : Prop :=
  match x with
  | S754_zero false | S754_finite false _ _ | S754_infinity false => True
  | _ => False
  end.
(** * Properties *)

(** ** Storage *)

Lemma getUsers_setUsers users ls :
  getUsers (setUsers users ls) = Ok (json_user <$> users).
Proof. reflexivity. Qed.

Lemma getUsers_setSession username ls :
  getUsers (setSession username ls) = getUsers ls.
Proof. reflexivity. Qed.

Lemma getSession_setSession username ls :
  getSession (setSession username ls) = Ok (Some username).
Proof. reflexivity. Qed.

Lemma getSession_setUsers users ls :
  getSession (setUsers users ls) = getSession ls.
Proof. reflexivity. Qed.

Lemma get_own users k u : users !! k = Some u -> get users k = Own u.
Proof. intros H. unfold get. by rewrite H. Qed.

Lemma get_Own_inv users k u : get users k = Own u -> users !! k = Some u.
Proof.
  unfold get. destruct (users !! k); [congruence|].
  by case_bool_decide.
Qed.

Lemma get_inherited users k :
  users !! k = None -> k ∈ Object_prototype_names -> get users k = Inherited.
Proof. intros H Hk. unfold get. rewrite H. by rewrite bool_decide_eq_true_2. Qed.

(** The inherited names are left alone by [trim]. *)
Lemma trim_prototype_name k : k ∈ Object_prototype_names -> trim k = k.
Proof.
  unfold Object_prototype_names. cbn [List.map].
  rewrite !elem_of_cons, elem_of_nil.
  intros H. repeat destruct H as [->|H]; try reflexivity. destruct H.
Qed.

(** ** Invalid amounts *)

(** C4. A transfer whose recipient is known and is not the sender, and
    whose amount is at most zero or is NaN, is answered with
    "Invalid amount."; neither the page's [users] (every balance and every
    transactions list) nor the storage changes. *)
Theorem transfer_invalid_amount to_field amount_ now pg ls :
  truthy (get (page_users pg) (trim to_field)) = true ->
  trim to_field ≠ page_session pg ->
  SFleb amount_ (of_Z 0) = true \/ is_nan amount_ = true ->
  transferForm_onsubmit to_field amount_ now pg ls
  = (ShowError "Invalid amount.", pg, ls).
Proof.
  intros Hto Hself Hamount. unfold transferForm_onsubmit.
  rewrite Hto. cbn [negb].
  rewrite bool_decide_eq_false_2 by done.
  replace (SFleb amount_ (of_Z 0) || is_nan amount_) with true; [done|].
  symmetry. apply orb_true_iff. exact Hamount.
Qed.

Lemma transfer_invalid_amount_witness :
  transferForm_onsubmit (js "bob") (of_Z (-5)) noon
    {| page_users := two_users; page_session := js "alice" |} two_users_storage
  = (ShowError "Invalid amount.",
     {| page_users := two_users; page_session := js "alice" |}, two_users_storage).
Proof.
  apply (transfer_invalid_amount (js "bob") (of_Z (-5)) noon
           {| page_users := two_users; page_session := js "alice" |}
           two_users_storage).
  - vm_compute. reflexivity.
  - vm_compute. discriminate.
  - left. vm_compute. reflexivity.
Defined.

(** ** Registration *)

Lemma register_success field p c random now ls url ls' :
  registerForm_onsubmit field p c random now ls = (Navigate url, ls') ->
  p = c /\ url = "dashboard.html"%string /\
  exists users encoded,
    getUsers ls = Ok users /\ get users (trim field) = Undefined /\
    btoa p = Ok encoded /\
    ls' = setSession (trim field)
            (setUsers (<[trim field := new_record encoded random now]> users) ls).
Proof.
  unfold registerForm_onsubmit.
  case_bool_decide as Hpc; [discriminate|].
  destruct (getUsers ls) as [users|e]; [|discriminate].
  destruct (get users (trim field)) eqn:Hget; cbn [truthy]; try discriminate.
  destruct (btoa p) as [encoded|e]; [|discriminate].
  intros [= <- <-]. repeat split; [done|]. by exists users, encoded.
Qed.

Lemma register_existing field p random now ls users :
  getUsers ls = Ok users ->
  truthy (get users (trim field)) = true ->
  registerForm_onsubmit field p p random now ls
  = (ShowError "Username already exists.", ls).
Proof.
  intros Hls Hget. unfold registerForm_onsubmit.
  rewrite bool_decide_eq_false_2 by (intros H; by apply H).
  by rewrite Hls, Hget.
Qed.

Lemma stored_after_register field encoded random now users ls :
  getUsers (setSession (trim field)
              (setUsers (<[trim field := new_record encoded random now]> users) ls))
  = Ok (json_user <$> <[trim field := new_record encoded random now]> users).
Proof. reflexivity. Qed.

(** C5. Registering a username that has a record in the store is answered
    with "Username already exists." and the storage (users and session) is
    returned as it was; so after a successful registration a second one
    under the same username fails, whatever its password. *)
Theorem register_duplicate :
  (forall field p random now ls users u,
      getUsers ls = Ok users ->
      users !! trim field = Some u ->
      registerForm_onsubmit field p p random now ls
      = (ShowError "Username already exists.", ls)) /\
  (forall field p c random now ls ls' p2 random2 now2,
      registerForm_onsubmit field p c random now ls
      = (Navigate "dashboard.html", ls') ->
      registerForm_onsubmit field p2 p2 random2 now2 ls'
      = (ShowError "Username already exists.", ls')).
Proof.
  split.
  - intros field p random now ls users u Hls Hu.
    apply register_existing with users; [done|].
    by rewrite (get_own _ _ _ Hu).
  - intros field p c random now ls ls' p2 random2 now2 Hreg.
    apply register_success in Hreg
      as (_ & _ & users & encoded & _ & _ & _ & ->).
    eapply register_existing; [apply stored_after_register|].
    unfold get. by rewrite lookup_fmap, lookup_insert_eq.
Qed.

Lemma register_duplicate_witness :
  registerForm_onsubmit (js "bob") (js "x") (js "x") random_half noon two_users_storage
  = (ShowError "Username already exists.", two_users_storage)
  /\ registerForm_onsubmit (js "carol") (js "y") (js "y") random_half noon
       (snd (registerForm_onsubmit (js "carol") (js "x") (js "x") random_half noon
               two_users_storage))
     = (ShowError "Username already exists.",
        snd (registerForm_onsubmit (js "carol") (js "x") (js "x") random_half noon
               two_users_storage)).
Proof.
  split.
  - apply (proj1 register_duplicate (js "bob") (js "x") random_half noon
             two_users_storage two_users (account "Yg==" 3000)).
    + reflexivity.
    + vm_compute. reflexivity.
  - apply (proj2 register_duplicate (js "carol") (js "x") (js "x") random_half noon
             two_users_storage).
    vm_compute. reflexivity.
Defined.

(** C10. A username that is one of the names every object inherits from
    [Object.prototype], and that has no record in the store, is refused by
    registration with "Username already exists."; the storage is returned
    as it was. *)
Theorem register_inherited_name name p random now ls users :
  name ∈ Object_prototype_names ->
  getUsers ls = Ok users ->
  users !! name = None ->
  registerForm_onsubmit name p p random now ls
  = (ShowError "Username already exists.", ls).
Proof.
  intros Hname Hls Hnone.
  apply register_existing with users; [done|].
  rewrite (trim_prototype_name _ Hname).
  by rewrite (get_inherited _ _ Hnone Hname).
Qed.

Lemma register_inherited_name_witness :
  registerForm_onsubmit (js "constructor") (js "x") (js "x") random_half noon
    empty_storage
  = (ShowError "Username already exists.", empty_storage).
Proof.
  apply (register_inherited_name (js "constructor") (js "x") random_half noon
           empty_storage ∅).
  - apply list_elem_of_here.
  - reflexivity.
  - apply lookup_empty.
Defined.

(** C1, as stated, fails: with [Math.random()] returning 0.5 the new record
    holds a balance of 5500 and a single credit of 1000, so no transaction
    of the list has the balance as its amount. *)
Lemma register_balance_counterexample :
  exists ls' u,
    registerForm_onsubmit (js "alice") (js "a") (js "a") random_half noon
      empty_storage = (Navigate "dashboard.html", ls') /\
    stored ls' !! js "alice" = Some u /\
    balance u = VNum (of_Z 5500) /\
    ~ exists t, t ∈ transactions u /\ type t = credit /\ amount t = balance u.
Proof.
  eexists _, _. split; [reflexivity|].
  split; [vm_compute; reflexivity|].
  split; [vm_compute; reflexivity|].
  intros (t & Ht & _ & Hamount). cbn in Ht.
  apply list_elem_of_singleton in Ht. subst t.
  vm_compute in Hamount. discriminate.
Qed.

(** ** Login *)

(** C6. After a successful registration, logging in with the same username
    field and password succeeds and the stored session is that (trimmed)
    username. And whenever the store holds a record under the username and
    the password's encoding differs from the stored one, login is answered
    with "Invalid username or password." and the storage, session
    included, is returned as it was. *)
Theorem login_after_register :
  (forall field p c random now ls ls',
      registerForm_onsubmit field p c random now ls
      = (Navigate "dashboard.html", ls') ->
      loginForm_onsubmit field p ls'
      = (Navigate "dashboard.html", setSession (trim field) ls') /\
      getSession (setSession (trim field) ls') = Ok (Some (trim field))) /\
  (forall field p ls users u encoded,
      getUsers ls = Ok users ->
      users !! trim field = Some u ->
      btoa p = Ok encoded ->
      encoded ≠ password u ->
      loginForm_onsubmit field p ls
      = (ShowError "Invalid username or password.", ls)).
Proof.
  split.
  - intros field p c random now ls ls' Hreg.
    apply register_success in Hreg
      as (_ & _ & users & encoded & _ & _ & Hp & ->).
    split; [|reflexivity].
    unfold loginForm_onsubmit. rewrite stored_after_register.
    unfold get. rewrite lookup_fmap, lookup_insert_eq. cbn.
    rewrite Hp. by rewrite bool_decide_eq_false_2 by (intros H; by apply H).
  - intros field p ls users u encoded Hls Hu Hp Hne.
    unfold loginForm_onsubmit. rewrite Hls, (get_own _ _ _ Hu), Hp.
    by rewrite bool_decide_eq_true_2 by congruence.
Qed.

Lemma login_after_register_witness :
  (loginForm_onsubmit (js "carol") (js "x")
     (snd (registerForm_onsubmit (js "carol") (js "x") (js "x") random_half noon
             two_users_storage))
   = (Navigate "dashboard.html",
      setSession (trim (js "carol"))
        (snd (registerForm_onsubmit (js "carol") (js "x") (js "x") random_half noon
                two_users_storage)))
   /\ getSession
        (setSession (trim (js "carol"))
           (snd (registerForm_onsubmit (js "carol") (js "x") (js "x") random_half
                   noon two_users_storage)))
      = Ok (Some (trim (js "carol"))))
  /\ loginForm_onsubmit (js "bob") (js "a") two_users_storage
     = (ShowError "Invalid username or password.", two_users_storage).
Proof.
  split.
  - apply (proj1 login_after_register (js "carol") (js "x") (js "x") random_half
             noon two_users_storage).
    vm_compute. reflexivity.
  - apply (proj2 login_after_register (js "bob") (js "a") two_users_storage
             two_users (account "Yg==" 3000) (js "YQ==")).
    + reflexivity.
    + vm_compute. reflexivity.
    + vm_compute. reflexivity.
    + vm_compute. discriminate.
Defined.

(** ** A store that does not parse *)

(** C2, as stated, fails: on a users key holding text that is not JSON,
    registration ends in an uncaught [SyntaxError], where on an empty store
    it succeeds. *)
Lemma unparseable_store_counterexample :
  fst (registerForm_onsubmit (js "alice") (js "a") (js "a") random_half noon
         corrupt_storage) = Uncaught SyntaxError /\
  fst (registerForm_onsubmit (js "alice") (js "a") (js "a") random_half noon
         empty_storage) = Navigate "dashboard.html".
Proof. split; reflexivity. Qed.

(** C2, amended. A users key that is absent or holds the empty string is
    read as the empty store: [getUsers] returns the empty object and
    registration, login, the dashboard and the admin listing do what they do
    on a stored [{}]. A non-empty string that is not JSON makes [getUsers]
    raise [SyntaxError], which nothing catches: registration (once the
    passwords match), login, the dashboard (once there is a session) and the
    admin listing (once the password is right) end in that exception, the
    storage as it was. *)
Theorem unparseable_store ls :
  (bank_users ls = None \/ bank_users ls = Some EmptyString ->
   let ls0 := {| bank_users := Some (Json ∅); bank_session := bank_session ls |} in
   getUsers ls = Ok ∅ /\
   (forall field p c random now,
       fst (registerForm_onsubmit field p c random now ls)
       = fst (registerForm_onsubmit field p c random now ls0)) /\
   (forall field p,
       fst (loginForm_onsubmit field p ls) = fst (loginForm_onsubmit field p ls0)) /\
   dashboard ls = dashboard ls0 /\
   (forall pass, adminForm_onsubmit pass ls = adminForm_onsubmit pass ls0)) /\
  (bank_users ls = Some NotJson ->
   getUsers ls = Throw SyntaxError /\
   (forall field p random now,
       registerForm_onsubmit field p p random now ls = (Uncaught SyntaxError, ls)) /\
   (forall field p,
       loginForm_onsubmit field p ls = (Uncaught SyntaxError, ls)) /\
   (forall name,
       getSession ls = Ok (Some name) -> name ≠ [] ->
       dashboard ls = Crashed SyntaxError) /\
   adminForm_onsubmit ADMIN_PASSWORD ls = Uncaught SyntaxError).
Proof.
  split.
  - intros Hls ls0.
    assert (Hget : getUsers ls = Ok ∅)
      by (unfold getUsers; destruct Hls as [-> | ->]; reflexivity).
    assert (Hget0 : getUsers ls0 = Ok ∅) by reflexivity.
    repeat split.
    + exact Hget.
    + intros. unfold registerForm_onsubmit. rewrite Hget, Hget0.
      case_bool_decide; [done|].
      destruct (truthy _); [done|]. by destruct (btoa p).
    + intros. unfold loginForm_onsubmit. rewrite Hget, Hget0.
      destruct (get _ _); [|by destruct (btoa p)|done].
      destruct (btoa p); [|done]. by case_bool_decide.
    + unfold dashboard. rewrite Hget, Hget0. reflexivity.
    + intros. unfold adminForm_onsubmit. by rewrite Hget, Hget0.
  - intros Hls.
    assert (Hget : getUsers ls = Throw SyntaxError)
      by (unfold getUsers; by rewrite Hls).
    repeat split.
    + exact Hget.
    + intros. unfold registerForm_onsubmit. rewrite Hget.
      by rewrite bool_decide_eq_false_2 by (intros H; by apply H).
    + intros. unfold loginForm_onsubmit. by rewrite Hget.
    + intros name Hs Hne. unfold dashboard. rewrite Hs, Hget.
      by destruct name.
    + unfold adminForm_onsubmit. rewrite Hget.
      by rewrite bool_decide_eq_false_2 by (intros H; by apply H).
Qed.

Lemma unparseable_store_witness :
  getUsers empty_storage = Ok ∅ /\
  registerForm_onsubmit (js "alice") (js "a") (js "a") random_half noon
    corrupt_storage = (Uncaught SyntaxError, corrupt_storage).
Proof.
  split.
  - apply (proj1 (unparseable_store empty_storage)). left. reflexivity.
  - apply (proj2 (unparseable_store corrupt_storage)). reflexivity.
Defined.

(** ** What a transfer does to the page and to the storage *)

Lemma get_insert_ne users k k' u : k ≠ k' -> get (<[k := u]> users) k' = get users k'.
Proof. intros H. unfold get. by rewrite lookup_insert_ne. Qed.

Lemma get_not_own users k :
  users !! k = None -> forall u, get users k ≠ Own u.
Proof. intros H u Hget. apply get_Own_inv in Hget. congruence. Qed.

(** A transfer that reaches the reload. *)
Lemma transfer_success to_field amount_ now pg ls pg' ls' :
  transferForm_onsubmit to_field amount_ now pg ls = (Reload, pg', ls') ->
  exists s r,
    page_users pg !! page_session pg = Some s /\
    page_users pg !! trim to_field = Some r /\
    trim to_field ≠ page_session pg /\
    SFleb amount_ (of_Z 0) = false /\ is_nan amount_ = false /\
    js_lt (balance s) (VNum amount_) = false /\
    page_session pg' = page_session pg /\
    page_users pg' =
      <[trim to_field :=
          push (credit_entry (page_session pg) amount_ now)
            (set_balance (js_add (balance r) (VNum amount_)) r)]>
        (<[page_session pg :=
             push (debit_entry (trim to_field) amount_ now)
               (set_balance (js_sub (balance s) (VNum amount_)) s)]>
           (page_users pg)) /\
    ls' = setUsers (page_users pg') ls.
Proof.
  unfold transferForm_onsubmit.
  destruct (truthy (get (page_users pg) (trim to_field))); cbn [negb]; [|discriminate].
  case_bool_decide as Hself; [discriminate|].
  destruct (SFleb amount_ (of_Z 0)) eqn:Hle; [discriminate|].
  destruct (is_nan amount_) eqn:Hnan; [discriminate|]. cbn [orb].
  destruct (get (page_users pg) (page_session pg)) as [s| |] eqn:Hs.
  2:{ destruct (get (page_users pg) (trim to_field)); discriminate. }
  2:{ discriminate. }
  destruct (js_lt (balance s) (VNum amount_)) eqn:Hlt; [discriminate|].
  rewrite get_insert_ne by done.
  destruct (get (page_users pg) (trim to_field)) as [r| |] eqn:Hr; try discriminate.
  intros [= <- <-]. exists s, r. cbn [page_users page_session].
  apply get_Own_inv in Hs, Hr.
  assert (Hmap : forall s1 s2 r1 r2 : user,
             <[trim to_field := r2]> (<[page_session pg := s2]>
               (<[trim to_field := r1]> (<[page_session pg := s1]> (page_users pg))))
             = <[trim to_field := r2]> (<[page_session pg := s2]> (page_users pg))).
  { intros. rewrite (insert_insert_ne _ (page_session pg) (trim to_field)) by done.
    by rewrite !insert_insert_eq. }
  unfold debit_entry, credit_entry. rewrite Hmap.
  repeat split; done.
Qed.

(** ** Records only grow *)

Lemma appended_refl users : appended users users.
Proof. intros k u Hu. by exists u. Qed.

Lemma appended_trans a b c : appended a b -> appended b c -> appended a c.
Proof.
  intros Hab Hbc k u Hu.
  destruct (Hab k u Hu) as (u1 & Hu1 & Hp1 & Ht1).
  destruct (Hbc k u1 Hu1) as (u2 & Hu2 & Hp2 & Ht2).
  exists u2. repeat split; [done|congruence|by etrans].
Qed.

Lemma appended_insert users k u u' :
  users !! k = Some u ->
  password u' = password u ->
  transactions u `prefix_of` transactions u' ->
  appended users (<[k := u']> users).
Proof.
  intros Hk Hp Ht k' v Hv. destruct (decide (k = k')) as [<-|Hne].
  - rewrite lookup_insert_eq. exists u'. by simplify_eq.
  - rewrite lookup_insert_ne by done. by exists v.
Qed.

Lemma appended_insert_new users k u :
  users !! k = None -> appended users (<[k := u]> users).
Proof.
  intros Hk k' v Hv. destruct (decide (k = k')) as [<-|Hne]; [congruence|].
  rewrite lookup_insert_ne by done. by exists v.
Qed.

Lemma json_number_idemp v : json_number (json_number v) = json_number v.
Proof. by destruct v as [|[]]. Qed.

Lemma json_transaction_idemp t : json_transaction (json_transaction t) = json_transaction t.
Proof. unfold json_transaction. cbn. by rewrite json_number_idemp. Qed.

Lemma json_user_idemp u : json_user (json_user u) = json_user u.
Proof.
  unfold json_user. cbn. rewrite json_number_idemp. f_equal.
  rewrite <- list_fmap_compose. apply list_fmap_ext.
  intros _ t _. apply json_transaction_idemp.
Qed.

Lemma canonical_setUsers users ls : canonical (setUsers users ls).
Proof.
  unfold canonical, stored. rewrite getUsers_setUsers.
  rewrite <- map_fmap_compose. apply map_fmap_ext.
  intros _ u _. apply json_user_idemp.
Qed.

Lemma canonical_lookup ls k u :
  canonical ls -> stored ls !! k = Some u -> json_user u = u.
Proof.
  intros Hc Hu. pose proof Hu as Hu'.
  rewrite <- Hc, lookup_fmap, Hu in Hu'. cbn in Hu'. congruence.
Qed.

(** Writing out a [users] object that extends the stored one extends the
    stored one: the entries already there are written as they were read. *)
Lemma appended_stringify ls users :
  canonical ls -> appended (stored ls) users ->
  appended (stored ls) (json_user <$> users).
Proof.
  intros Hc Happ k u Hu. destruct (Happ k u Hu) as (u' & Hu' & Hp & Ht).
  exists (json_user u'). rewrite lookup_fmap, Hu'. repeat split; [done|].
  rewrite <- (canonical_lookup _ _ _ Hc Hu). cbn.
  destruct Ht as [extra ->]. rewrite fmap_app. by eexists.
Qed.

Lemma set_balance_push_appended users k u b t :
  users !! k = Some u ->
  appended users (<[k := push t (set_balance b u)]> users).
Proof.
  intros Hk. apply appended_insert with u; [done|done|].
  cbn. by apply prefix_app_r.
Qed.

Lemma transfer_page to_field amount_ now pg ls out pg' ls' :
  transferForm_onsubmit to_field amount_ now pg ls = (out, pg', ls') ->
  page_session pg' = page_session pg /\
  appended (page_users pg) (page_users pg') /\
  (out ≠ Reload -> ls' = ls) /\
  (out = Reload -> ls' = setUsers (page_users pg') ls).
Proof.
  assert (out = Reload \/ out ≠ Reload) as [->|Hout]
    by (destruct out; (by left) || (by right)).
  - intros H. apply transfer_success in H
      as (s & r & Hs & Hr & Hne & _ & _ & _ & Hsess & Hus & Hls).
    repeat split; [done| |done|done].
    rewrite Hus.
    apply appended_trans with
      (<[page_session pg :=
           push (debit_entry (trim to_field) amount_ now)
             (set_balance (js_sub (balance s) (VNum amount_)) s)]> (page_users pg)).
    + by apply set_balance_push_appended.
    + apply set_balance_push_appended. by rewrite lookup_insert_ne.
  - unfold transferForm_onsubmit.
    assert (Hsame : forall msg, (ShowError msg, pg, ls) = (out, pg', ls') ->
              page_session pg' = page_session pg /\
              appended (page_users pg) (page_users pg') /\
              (out ≠ Reload -> ls' = ls) /\
              (out = Reload -> ls' = setUsers (page_users pg') ls)).
    { intros msg [= <- <- <-]. repeat split; [apply appended_refl|done..]. }
    destruct (truthy (get (page_users pg) (trim to_field))); cbn [negb]; [|by apply Hsame].
    case_bool_decide as Hself; [by apply Hsame|].
    destruct (SFleb amount_ (of_Z 0) || is_nan amount_); [by apply Hsame|].
    destruct (get (page_users pg) (page_session pg)) as [s| |] eqn:Hs.
    + destruct (js_lt (balance s) (VNum amount_)); [by apply Hsame|].
      rewrite get_insert_ne by done.
      apply get_Own_inv in Hs.
      destruct (get (page_users pg) (trim to_field)) as [r| |] eqn:Hr.
      * intros [= <- <- <-]. done.
      * intros [= <- <- <-]. cbn [page_users page_session].
        repeat split; [|done..]. rewrite insert_insert_eq.
        by apply set_balance_push_appended.
      * intros [= <- <- <-]. cbn [page_users page_session].
        repeat split; [|done..]. rewrite insert_insert_eq.
        by apply set_balance_push_appended.
    + destruct (get (page_users pg) (trim to_field)) as [r| |] eqn:Hr.
      * apply get_Own_inv in Hr.
        intros [= <- <- <-]. cbn [page_users page_session].
        repeat split; [|done..].
        apply appended_insert with r; done.
      * intros [= <- <- <-]. repeat split; [apply appended_refl|done..].
      * intros [= <- <- <-]. repeat split; [apply appended_refl|done..].
    + intros [= <- <- <-]. repeat split; [apply appended_refl|done..].
Qed.

(** A page the dashboard script has just built. *)
Lemma open_dashboard_fresh ls pg :
  open_dashboard ls = Some pg ->
  getUsers ls = Ok (page_users pg) /\
  getSession ls = Ok (Some (page_session pg)) /\
  page_session pg ≠ [] /\
  is_Some (page_users pg !! page_session pg).
Proof.
  unfold open_dashboard, dashboard.
  destruct (getSession ls) as [[[|c name]|]|]; try discriminate.
  destruct (getUsers ls) as [users|]; try discriminate.
  destruct (get users (c :: name)) as [u| |] eqn:Hu; try discriminate.
  intros [= <-]. cbn. apply get_Own_inv in Hu. by rewrite Hu.
Qed.

Lemma stored_fresh ls pg :
  open_dashboard ls = Some pg -> stored ls = page_users pg.
Proof.
  intros H. apply open_dashboard_fresh in H as (H & _). unfold stored. by rewrite H.
Qed.

Lemma append_inv_fresh ls :
  canonical ls -> append_inv {| storage := ls; dash := open_dashboard ls |}.
Proof.
  intros Hc. split; [done|]. cbn. intros pg Hpg.
  rewrite (stored_fresh _ _ Hpg). apply appended_refl.
Qed.

Lemma append_inv_closed ls :
  canonical ls -> append_inv {| storage := ls; dash := None |}.
Proof. intros Hc. split; [done|]. intros pg [=]. Qed.

Lemma stored_setSession name ls : stored (setSession name ls) = stored ls.
Proof. reflexivity. Qed.

Lemma stored_clearSession ls : stored (clearSession ls) = stored ls.
Proof. reflexivity. Qed.

Lemma stored_setUsers users ls : stored (setUsers users ls) = json_user <$> users.
Proof. reflexivity. Qed.

Lemma canonical_setSession name ls : canonical ls -> canonical (setSession name ls).
Proof. done. Qed.

Lemma get_Undefined_inv users k : get users k = Undefined -> users !! k = None.
Proof. unfold get. destruct (users !! k); [discriminate|done]. Qed.

Lemma stored_getUsers ls users : getUsers ls = Ok users -> stored ls = users.
Proof. intros H. unfold stored. by rewrite H. Qed.

Lemma register_result field p c random now ls out ls' :
  registerForm_onsubmit field p c random now ls = (out, ls') ->
  match out with
  | Navigate _ =>
      exists encoded,
        stored ls !! trim field = None /\
        ls' = setSession (trim field)
                (setUsers (<[trim field := new_record encoded random now]> (stored ls)) ls)
  | _ => ls' = ls
  end.
Proof.
  intros H. destruct out; try (revert H; unfold registerForm_onsubmit;
    repeat (case_bool_decide || case_match); congruence).
  apply register_success in H
    as (_ & _ & users & encoded & Hls & Hget & _ & ->).
  exists encoded. rewrite (stored_getUsers _ _ Hls).
  split; [by apply get_Undefined_inv|done].
Qed.

Lemma login_result field p ls out ls' :
  loginForm_onsubmit field p ls = (out, ls') ->
  match out with
  | Navigate _ =>
      is_Some (stored ls !! trim field) /\ ls' = setSession (trim field) ls
  | _ => ls' = ls
  end.
Proof.
  unfold loginForm_onsubmit.
  destruct (getUsers ls) as [users|e] eqn:Hls; [|by intros [= <- <-]].
  rewrite (stored_getUsers _ _ Hls).
  destruct (get users (trim field)) as [u| |] eqn:Hu.
  - apply get_Own_inv in Hu.
    destruct (btoa p); [|by intros [= <- <-]].
    case_bool_decide; intros [= <- <-]; [done|]. by rewrite Hu.
  - destruct (btoa p); by intros [= <- <-].
  - by intros [= <- <-].
Qed.

Lemma step_append_inv w ev out w' :
  append_inv w -> step w ev = (out, w') ->
  append_inv w' /\ appended (stored (storage w)) (stored (storage w')).
Proof.
  intros Hinv Hstep. pose proof Hinv as [Hc Hpage].
  destruct ev; cbn [step] in Hstep.
  - destruct (registerForm_onsubmit _ _ _ _ _ _) as [out1 ls1] eqn:Hreg.
    apply register_result in Hreg. injection Hstep as <- <-. cbn [storage].
    destruct out1; try (subst ls1; split; [exact Hinv|apply appended_refl]).
    destruct Hreg as (encoded & Hnew & ->).
    split.
    + apply append_inv_fresh, canonical_setSession, canonical_setUsers.
    + rewrite stored_setSession, stored_setUsers.
      by apply appended_stringify, appended_insert_new.
  - destruct (loginForm_onsubmit _ _ _) as [out1 ls1] eqn:Hlog.
    apply login_result in Hlog. injection Hstep as <- <-. cbn [storage].
    destruct out1; try (subst ls1; split; [exact Hinv|apply appended_refl]).
    destruct Hlog as (_ & ->).
    split; [by apply append_inv_fresh|apply appended_refl].
  - destruct (dashboard (storage w)) as [url|pg v|e] eqn:Hd;
      injection Hstep as <- <-; cbn [storage];
      (split; [|apply appended_refl]).
    + by apply append_inv_closed.
    + replace (Some pg) with (open_dashboard (storage w))
        by (unfold open_dashboard; by rewrite Hd).
      by apply append_inv_fresh.
    + by apply append_inv_closed.
  - destruct (dash w) as [pg|] eqn:Hdash.
    2:{ injection Hstep as <- <-. split; [exact Hinv|apply appended_refl]. }
    destruct (transferForm_onsubmit _ _ _ _ _) as [[out1 pg1] ls1] eqn:Htr.
    apply transfer_page in Htr as (Hsess & Happ & Hfail & Hok).
    injection Hstep as <- <-. cbn [storage].
    specialize (Hpage pg eq_refl).
    assert (Hahead : appended (stored (storage w)) (page_users pg1))
      by (by apply appended_trans with (page_users pg)).
    assert (out1 = Reload \/ out1 ≠ Reload) as [->|Hout]
      by (destruct out1; (by left) || (by right)).
    + rewrite (Hok eq_refl). split.
      * apply append_inv_fresh, canonical_setUsers.
      * rewrite stored_setUsers. by apply appended_stringify.
    + rewrite (Hfail Hout). split; [|apply appended_refl].
      split; [done|]. cbn [dash storage].
      destruct out1; try done; by intros ? [= <-].
  - destruct (dash w) as [pg|] eqn:Hdash.
    2:{ injection Hstep as <- <-. split; [exact Hinv|apply appended_refl]. }
    injection Hstep as <- <-. cbn [storage].
    split; [by apply append_inv_closed|apply appended_refl].
  - injection Hstep as <- <-. cbn [storage].
    split; [by apply append_inv_closed|apply appended_refl].
Qed.

(** C8. Along every run of the tab (registrations, logins, dashboard
    visits, transfers, logouts, admin listings) from a storage written by
    the script itself, every record that was stored is still stored, with
    the same password and with its old transactions, in their order, as a
    prefix of its new ones. And the dashboard hands the stored [users] on as
    read: what it shows is the reverse of the session user's list, the list
    itself is as stored. *)
Theorem transactions_append_only :
  (forall evs w outs w',
      append_inv w -> run w evs = (outs, w') ->
      appended (stored (storage w)) (stored (storage w')) /\ append_inv w') /\
  (forall ls pg v,
      dashboard ls = Rendered pg v ->
      getUsers ls = Ok (page_users pg) /\
      exists u, page_users pg !! page_session pg = Some u /\
                transaction_list v = rev (transactions u)).
Proof.
  split.
  - induction evs as [|ev evs IH]; intros w outs w' Hinv Hrun; cbn [run] in Hrun.
    + injection Hrun as <- <-. split; [apply appended_refl|done].
    + destruct (step w ev) as [out w1] eqn:Hstep.
      destruct (run w1 evs) as [outs1 w2] eqn:Hrun1.
      injection Hrun as <- <-.
      destruct (step_append_inv _ _ _ _ Hinv Hstep) as [Hinv1 Happ1].
      destruct (IH _ _ _ Hinv1 Hrun1) as [Happ2 Hinv2].
      split; [by apply appended_trans with (stored (storage w1))|done].
  - intros ls pg v. unfold dashboard.
    destruct (getSession ls) as [[[|c name]|]|]; try discriminate.
    destruct (getUsers ls) as [users|]; try discriminate.
    destruct (get users (c :: name)) as [u| |] eqn:Hu; try discriminate.
    intros [= <- <-]. cbn. split; [done|].
    exists u. split; [by apply get_Own_inv|done].
Qed.

Lemma append_inv_alice_dashboard : append_inv alice_dashboard.
Proof.
  split.
  - vm_compute. reflexivity.
  - intros pg [= <-]. apply appended_refl.
Qed.

Lemma transactions_append_only_witness :
  appended (stored (storage alice_dashboard))
    (stored (storage (snd (run alice_dashboard
       [Transfer (js "bob") three_tenths noon; Logout;
        Register (js "carol") (js "x") (js "x") random_half noon])))) /\
  getUsers two_users_storage = Ok two_users.
Proof.
  split.
  - eapply (proj1 transactions_append_only
              [Transfer (js "bob") three_tenths noon; Logout;
               Register (js "carol") (js "x") (js "x") random_half noon]
              alice_dashboard).
    + exact append_inv_alice_dashboard.
    + apply surjective_pairing.
  - eapply (proj1 (proj2 transactions_append_only two_users_storage
              {| page_users := two_users; page_session := js "alice" |} _ _)).
    Unshelve. 2:{ vm_compute. reflexivity. }
Defined.

(** ** No exception escapes a plain event on a sane tab *)

Lemma appended_is_Some old new k :
  appended old new -> is_Some (old !! k) -> is_Some (new !! k).
Proof. intros Happ [u Hu]. destruct (Happ k u Hu) as (u' & -> & _). by eexists. Qed.

Lemma parseable_getUsers ls : parseable ls -> getUsers ls = Ok (stored ls).
Proof.
  intros [Hu _]. unfold stored, getUsers.
  by destruct (bank_users ls) as [[]|].
Qed.

Lemma parseable_getSession ls : parseable ls -> exists s, getSession ls = Ok s.
Proof.
  intros [_ Hs]. unfold getSession.
  destruct (bank_session ls) as [[]|]; by eauto.
Qed.

Lemma latin1_btoa p : latin1 p -> btoa p = Ok (base64 p).
Proof.
  intros Hp. unfold btoa.
  replace (forallb _ p) with true; [done|].
  symmetry. apply forallb_forall. intros c Hc.
  apply N.leb_le. revert c Hc. apply List.Forall_forall, Hp.
Qed.



Lemma dashboard_no_crash ls e :
  parseable ls -> session_known ls -> dashboard ls ≠ Crashed e.
Proof.
  intros Hls Hknown. unfold dashboard.
  destruct (parseable_getSession _ Hls) as [s Hs]. rewrite Hs.
  destruct s as [[|c name]|]; [done| |done].
  rewrite (parseable_getUsers _ Hls).
  destruct (Hknown (c :: name) Hs) as [u Hu]; [done|].
  by rewrite (get_own _ _ _ Hu).
Qed.

Lemma admin_no_throw pass ls :
  parseable ls -> uncaught (adminForm_onsubmit pass ls) = false.
Proof.
  intros Hls. unfold adminForm_onsubmit.
  rewrite (parseable_getUsers _ Hls). by case_bool_decide.
Qed.



Lemma sane_fresh ls :
  parseable ls -> session_known ls ->
  sane {| storage := ls; dash := open_dashboard ls |}.
Proof.
  intros Hp Hk. repeat split; [apply Hp..|done| |];
    cbn [dash storage] in *.
  - by apply open_dashboard_fresh in H as (_ & _ & _ & H).
  - intros k. by rewrite (stored_fresh _ _ H).
Qed.

Lemma sane_closed ls :
  parseable ls -> session_known ls -> sane {| storage := ls; dash := None |}.
Proof. intros Hp Hk. repeat split; [apply Hp..|done|done|done]. Qed.



Lemma sane_empty : sane {| storage := empty_storage; dash := None |}.
Proof. apply sane_closed; [by split|]. intros name [=]. Qed.

(** The last condition of [sane] is needed. bob is logged in and stored;
    the page, loaded for alice, holds alice and zed but not bob. The
    transfer goes through and writes the page's users over the store; bob's
    record is gone while the session still names him, and the dashboard
    dies. *)
Lemma stale_page_drops_session_user :
  fst (run {| storage := {| bank_users := Some (Json two_users);
                            bank_session := Some (Json (Some (js "bob"))) |};
              dash := Some {| page_users :=
                                <[js "alice" := account "YQ==" 1000]>
                                  (<[js "zed" := account "eg==" 1000]> ∅);
                              page_session := js "alice" |} |}
         [Transfer (js "zed") (of_Z 1) noon; OpenDashboard])
  = [Reload; Uncaught TypeError].
Proof. vm_compute. reflexivity. Qed.



(** ** The sum of the balances *)

Lemma sum_balances_insert_new users k u :
  users !! k = None ->
  sum_balances (<[k := u]> users) = balance_units u + sum_balances users.
Proof.
  intros Hk. unfold sum_balances. rewrite map_fold_insert_L; [done| |done].
  intros. lia.
Qed.

Lemma sum_balances_insert users k u u' :
  users !! k = Some u ->
  sum_balances (<[k := u']> users)
  = sum_balances users - balance_units u + balance_units u'.
Proof.
  intros Hk.
  rewrite <- (insert_delete_id users k u) at 2 by done.
  rewrite <- (insert_delete_eq users k u').
  rewrite !sum_balances_insert_new by apply lookup_delete_eq. lia.
Qed.

Lemma units_json_number v : units (ToNumber (json_number v)) = units (ToNumber v).
Proof. by destruct v as [|[]]. Qed.

Lemma sum_balances_stringify users :
  sum_balances (json_user <$> users) = sum_balances users.
Proof.
  induction users as [|k u users Hk IH] using map_ind; [done|].
  rewrite fmap_insert, !sum_balances_insert_new, IH;
    [|done|by rewrite lookup_fmap, Hk].
  unfold balance_units. cbn. by rewrite units_json_number.
Qed.

Lemma synced_fresh ls : synced {| storage := ls; dash := open_dashboard ls |}.
Proof. intros pg Hpg. cbn in *. by apply open_dashboard_fresh in Hpg as (H & _). Qed.

Lemma transfer_step_sum w to amount_ now w' :
  synced w ->
  step w (Transfer to amount_ now) = (Reload, w') ->
  exact_transfer w to amount_ = true ->
  synced w' /\
  sum_balances (stored (storage w')) = sum_balances (stored (storage w)).
Proof.
  intros Hsync Hstep Hexact. cbn [step] in Hstep.
  unfold exact_transfer in Hexact.
  destruct (dash w) as [pg|] eqn:Hdash; [|discriminate].
  specialize (Hsync pg Hdash).
  destruct (transferForm_onsubmit _ _ _ _ _) as [[out pg1] ls1] eqn:Htr.
  injection Hstep as -> <-.
  apply transfer_success in Htr
    as (s & r & Hs & Hr & Hne & _ & _ & _ & _ & Hus & ->).
  split; [apply synced_fresh|]. cbn [storage].
  rewrite stored_setUsers, sum_balances_stringify, Hus.
  rewrite (stored_getUsers _ _ Hsync).
  rewrite Hs, Hr in Hexact.
  apply andb_true_iff in Hexact as [Hexact Hadd].
  apply andb_true_iff in Hexact as [_ Hsub].
  apply Z.eqb_eq in Hadd, Hsub.
  rewrite (sum_balances_insert _ _ r) by (by rewrite lookup_insert_ne).
  rewrite (sum_balances_insert _ _ s) by done.
  unfold balance_units at 2 4. cbn [balance push set_balance js_add js_sub ToNumber].
  rewrite Hadd, Hsub. unfold balance_units. lia.
Qed.

(** C3, as stated, fails: alice holds 1000 and bob 3000; alice sends 0.3
    twice. Both transfers pass every check and reach the reload, and the
    stored balances no longer add up to what they did, neither exactly nor
    when added as doubles (4000.0000000000005 against 4000). *)
Lemma sum_of_balances_counterexample :
  let evs := [Transfer (js "bob") three_tenths noon;
              Transfer (js "bob") three_tenths noon] in
  fst (run alice_dashboard evs) = [Reload; Reload] /\
  sum_balances (stored (storage (snd (run alice_dashboard evs))))
  ≠ sum_balances (stored (storage alice_dashboard)) /\
  float_sum (stored (storage (snd (run alice_dashboard evs))))
  ≠ float_sum (stored (storage alice_dashboard)).
Proof.
  cbv zeta. split; [vm_compute; reflexivity|].
  split; vm_compute; discriminate.
Qed.

(** C3, amended. For every sequence of transfers, from a dashboard that
    holds the stored users, each of which reaches the reload (it passes the
    four checks and its recipient has a record) and each of whose
    subtraction and addition is exact in double arithmetic, the exact sum
    of the stored balances after the sequence is the sum before it. *)
Theorem sum_of_balances_exact ts w outs w' :
  synced w ->
  run w (transfer_event <$> ts) = (outs, w') ->
  Forall (fun out => out = Reload) outs ->
  exact_transfers w ts = true ->
  sum_balances (stored (storage w')) = sum_balances (stored (storage w)).
Proof.
  revert w outs w'.
  induction ts as [|[[to amount_] now] ts IH]; intros w outs w' Hsync Hrun Houts Hexact.
  - by injection Hrun as <- <-.
  - cbn [fmap list_fmap transfer_event run] in Hrun.
    cbn [exact_transfers] in Hexact.
    destruct (step w (Transfer to amount_ now)) as [out w1] eqn:Hstep.
    destruct (run w1 _) as [outs1 w2] eqn:Hrun1.
    injection Hrun as <- <-.
    apply Forall_cons in Houts as [-> Houts].
    apply andb_true_iff in Hexact as [Hex1 Hexs]. cbn [snd] in Hexs.
    destruct (transfer_step_sum _ _ _ _ _ Hsync Hstep Hex1) as [Hsync1 Hsum1].
    rewrite <- Hsum1. by apply (IH _ _ _ Hsync1 Hrun1).
Qed.

Lemma sum_of_balances_exact_witness :
  sum_balances
    (stored (storage (snd (run alice_dashboard
       (transfer_event <$> [(js "bob", of_Z 250, noon); (js "bob", random_half, noon)])))))
  = sum_balances (stored (storage alice_dashboard)).
Proof.
  eapply (sum_of_balances_exact
            [(js "bob", of_Z 250, noon); (js "bob", random_half, noon)]
            alice_dashboard).
  - intros pg [= <-]. reflexivity.
  - apply surjective_pairing.
  - vm_compute. repeat constructor.
  - vm_compute. reflexivity.
Defined.

(** ** A transfer to an inherited name *)

(** C7 at a recipient that passes the check without having a record: alice
    (1000) sends 1 to "constructor". The handler debits her in memory,
    appends the debit, and dies with a [TypeError] before anything is
    credited or stored. The page lives on: her next transfer, 1 to bob,
    stores her balance as 998 and bob's as 3001, and her list with both
    debits. *)
Theorem transfer_to_inherited_name :
  let '(out1, w1) := step alice_dashboard (Transfer (js "constructor") (of_Z 1) noon) in
  let '(out2, w2) := step w1 (Transfer (js "bob") (of_Z 1) noon) in
  out1 = Uncaught TypeError /\
  storage w1 = storage alice_dashboard /\
  (exists pg s, dash w1 = Some pg /\ page_users pg !! js "alice" = Some s /\
     balance s = VNum (of_Z 999) /\
     transactions s = transactions (account "YQ==" 1000)
                      ++ [debit_entry (js "constructor") (of_Z 1) noon]) /\
  out2 = Reload /\
  balance <$> stored (storage w2) !! js "alice" = Some (VNum (of_Z 998)) /\
  balance <$> stored (storage w2) !! js "bob" = Some (VNum (of_Z 3001)) /\
  (length ∘ transactions) <$> stored (storage w2) !! js "alice" = Some 3%nat /\
  (length ∘ transactions) <$> stored (storage w2) !! js "bob" = Some 2%nat.
Proof.
  vm_compute. repeat split.
  eexists _, _. repeat split.
Qed.

(** ** The arithmetic of the registration balance *)

Lemma shr_1_good M k mrs : 0 <= k -> good M k mrs -> good M (k + 1) (shr_1 mrs).
Proof.
  intros Hk (Hm & Hle & _). destruct mrs as [m r s]. cbn [shr_m shr_r] in *.
  unfold good. rewrite Z.pow_add_r, Z.pow_1_r by lia.
  assert (0 < 2 ^ k) by (apply Z.pow_pos_nonneg; lia).
  destruct m as [|[p|p|]|p]; cbn [shr_1 shr_m shr_r]; lia.
Qed.

Lemma iter_shr_1_good M p : forall k mrs,
  0 <= k -> good M k mrs -> good M (k + Z.pos p) (SpecFloat.iter_pos shr_1 p mrs).
Proof.
  induction p as [p IH|p IH|]; intros k mrs Hk Hgood; cbn [SpecFloat.iter_pos].
  - rewrite Pos2Z.inj_xI.
    replace (k + (2 * Z.pos p + 1)) with (k + 1 + Z.pos p + Z.pos p) by lia.
    apply IH; [lia|]. apply IH; [lia|]. by apply shr_1_good.
  - rewrite Pos2Z.inj_xO.
    replace (k + 2 * Z.pos p) with (k + Z.pos p + Z.pos p) by lia.
    apply IH; [lia|]. by apply IH.
  - by apply shr_1_good.
Qed.

Lemma shr_good M mrs e n :
  good M 0 mrs ->
  good M (Z.max 0 n) (fst (shr mrs e n)) /\ snd (shr mrs e n) = e + Z.max 0 n.
Proof.
  intros Hgood. destruct n as [|p|p]; cbn [shr fst snd].
  - split; [done|lia].
  - rewrite Z.max_r by lia. split; [|done].
    by apply (iter_shr_1_good M p 0).
  - split; [done|lia].
Qed.

Lemma good_exact m : 0 <= m -> good m 0 (shr_record_of_loc m loc_Exact).
Proof. intros. unfold good. cbn. repeat split; [lia|lia|discriminate]. Qed.

Lemma round_nearest_even_bound M k mrs :
  0 <= k -> good M k mrs ->
  let m2 := round_nearest_even (shr_m mrs) (loc_of_shr_record mrs) in
  0 <= m2 /\ 2 * m2 * 2 ^ k <= 2 * M + 2 ^ k.
Proof.
  intros Hk (Hm & Hle & Hr). destruct mrs as [m r s]. cbn [shr_m shr_r] in *.
  assert (0 < 2 ^ k) by (apply Z.pow_pos_nonneg; lia).
  destruct r, s; cbn [loc_of_shr_record round_nearest_even].
  - specialize (Hr eq_refl). split; nia.
  - specialize (Hr eq_refl). destruct (Z.even m); split; nia.
  - split; nia.
  - split; nia.
Qed.

(** Rounding an exact product or sum: the mantissa and the exponent that
    come out, against the mantissa and the exponent that went in. *)
Lemma binary_round_aux_exact (M : positive) (E : Z) :
  exists m2 m3 k k2,
    k = Z.max 0 (fexp prec emax (Zdigits2 (Z.pos M) + E) - E) /\
    k2 = Z.max 0 (fexp prec emax (Zdigits2 m2 + (E + k)) - (E + k)) /\
    0 <= m2 /\ 2 * m2 * 2 ^ k <= 2 * Z.pos M + 2 ^ k /\
    0 <= m3 /\ m3 * 2 ^ k2 <= m2 /\
    binary_round_aux prec emax false (Z.pos M) E loc_Exact
    = match m3 with
      | 0 => S754_zero false
      | Z.pos m =>
          if E + k + k2 <=? emax - prec then S754_finite false m (E + k + k2)
          else S754_infinity false
      | Z.neg _ => S754_nan
      end.
Proof.
  unfold binary_round_aux, shr_fexp.
  pose proof (shr_good (Z.pos M) (shr_record_of_loc (Z.pos M) loc_Exact) E
                (fexp prec emax (Zdigits2 (Z.pos M) + E) - E)
                (good_exact _ (Pos2Z.is_nonneg M))) as [Hg1 He1].
  destruct (shr _ E _) as [mrs1 e1]. cbn [fst snd] in Hg1, He1.
  set (k := Z.max 0 (fexp prec emax (Zdigits2 (Z.pos M) + E) - E)) in *.
  assert (Hk : 0 <= k) by apply Z.le_max_l.
  destruct (round_nearest_even_bound _ _ _ Hk Hg1) as [Hm2 Hb2].
  set (m2 := round_nearest_even (shr_m mrs1) (loc_of_shr_record mrs1)) in *.
  pose proof (shr_good m2 (shr_record_of_loc m2 loc_Exact) e1
                (fexp prec emax (Zdigits2 m2 + e1) - e1)
                (good_exact _ Hm2)) as [Hg2 He2].
  destruct (shr _ e1 _) as [mrs2 e2]. cbn [fst snd] in Hg2, He2.
  subst e1.
  exists m2, (shr_m mrs2), k, (Z.max 0 (fexp prec emax (Zdigits2 m2 + (E + k)) - (E + k))).
  destruct Hg2 as (Hm3 & Hle3 & _).
  repeat split; try done.
  rewrite He2. reflexivity.
Qed.

Lemma digits2_pos_lower p : 2 ^ (Z.pos (digits2_pos p) - 1) <= Z.pos p.
Proof.
  induction p as [p IH|p IH|]; cbn [digits2_pos]; [| |done].
  all: rewrite Pos2Z.inj_succ;
       replace (Z.succ (Z.pos (digits2_pos p)) - 1)
         with (Z.pos (digits2_pos p) - 1 + 1) by lia;
       rewrite Z.pow_add_r, Z.pow_1_r by lia; lia.
Qed.

Lemma Zdigits2_le z n : 0 <= n -> 0 <= z < 2 ^ n -> Zdigits2 z <= n.
Proof.
  intros Hn [Hz Hlt]. destruct z as [|p|p]; cbn [Zdigits2]; [lia| |lia].
  pose proof (digits2_pos_lower p) as Hlow.
  destruct (Z_le_gt_dec (Z.pos (digits2_pos p)) n) as [|Hgt]; [done|].
  assert (2 ^ n <= 2 ^ (Z.pos (digits2_pos p) - 1))
    by (apply Z.pow_le_mono_r; lia).
  lia.
Qed.

Lemma of_Z_9000 : of_Z 9000 = S754_finite false 4947802324992000 (-39).
Proof. reflexivity. Qed.

Lemma of_Z_1 : of_Z 1 = S754_finite false 4503599627370496 (-52).
Proof. reflexivity. Qed.

Lemma digits2_pos_upper p : Z.pos p < 2 ^ Z.pos (digits2_pos p).
Proof.
  induction p as [p IH|p IH|]; cbn [digits2_pos]; [| |done].
  all: rewrite Pos2Z.inj_succ, Z.pow_succ_r by lia; lia.
Qed.

(** A double below one: its exponent and its mantissa. *)
Lemma valid_below_one m e :
  valid_binary prec emax (S754_finite false m e) = true ->
  SFltb (S754_finite false m e) (of_Z 1) = true ->
  -1074 <= e <= -53 /\ Z.pos m < 2 ^ 53.
Proof.
  rewrite of_Z_1. unfold valid_binary, bounded, canonical_mantissa, SFltb, SFcompare.
  intros Hvalid Hlt.
  apply andb_true_iff in Hvalid as [Hcanon _]. apply Z.eqb_eq in Hcanon.
  unfold fexp, emin, prec, emax in Hcanon.
  pose proof (digits2_pos_lower m) as Hlow.
  pose proof (digits2_pos_upper m) as Hup.
  destruct (Z.compare_spec e (-52)) as [He|He|He]; [| |discriminate Hlt].
  - rewrite Pos.compare_cont_spec in Hlt.
    destruct (Pos.compare_spec m 4503599627370496) as [|Hm|];
      cbn [Pos.switch_Eq] in Hlt; try discriminate Hlt.
    assert (Z.pos (digits2_pos m) = 53) as Hd by (clear - Hcanon He; lia).
    rewrite Hd in Hlow.
    assert (Hpow : 2 ^ (53 - 1) = 4503599627370496) by reflexivity.
    rewrite Hpow in Hlow. apply Pos2Z.pos_lt_pos in Hm. clear - Hlow Hm. lia.
  - assert (Z.pos (digits2_pos m) <= 53) as Hd by (clear - Hcanon He; lia).
    split; [clear - Hcanon He; lia|].
    eapply Z.lt_le_trans; [exact Hup|]. apply Z.pow_le_mono_r; lia.
Qed.

Lemma pow2_pos n : 0 <= n -> 0 < 2 ^ n.
Proof. intros. apply Z.pow_pos_nonneg; lia. Qed.

(** [Math.floor(random * 9000)] for a double [random] below one. *)
Lemma floor_random_9000 m e :
  -1074 <= e <= -53 -> Z.pos m < 2 ^ 53 ->
  exists q, 0 <= q <= 8999 /\
    Math_floor (SFmul prec emax (S754_finite false m e) (of_Z 9000)) = of_Z q.
Proof.
  intros He Hm. rewrite of_Z_9000. cbn [SFmul xorb].
  destruct (binary_round_aux_exact (m * 4947802324992000) (e + -39))
    as (m2 & m3 & k & k2 & Hk & Hk2 & Hm2 & Hb2 & Hm3 & Hb3 & ->).
  rewrite Pos2Z.inj_mul in Hk, Hb2.
  assert (H53 : 2 ^ 53 = 9007199254740992) by reflexivity.
  assert (H106 : 2 ^ 106 = 9007199254740992 * 9007199254740992) by reflexivity.
  assert (H39 : 2 ^ 39 = 549755813888) by reflexivity.
  rewrite H53 in Hm.
  (* the digits of the product *)
  assert (Hd : Zdigits2 (Z.pos m * 4947802324992000) <= 106).
  { apply Zdigits2_le; [lia|]. rewrite H106. lia. }
  assert (Hd0 : 0 <= Zdigits2 (Z.pos m * 4947802324992000)).
  { destruct (Z.pos m * 4947802324992000); cbn; lia. }
  unfold fexp, emin, prec, emax in Hk, Hk2.
  assert (Hk53 : 0 <= k <= 53) by lia.
  assert (Hek : e + -39 + k <= -39) by lia.
  set (P := 2 ^ (- e)).
  assert (HP : 9007199254740992 <= P).
  { rewrite <- H53. apply Z.pow_le_mono_r; lia. }
  set (A := 2 ^ k) in *.
  assert (HA : 0 < A <= 9007199254740992).
  { split; [apply pow2_pos; lia|]. rewrite <- H53. apply Z.pow_le_mono_r; lia. }
  assert (Hm2A : m2 * A < P * 4947802324992000) by lia.
  (* the digits of the rounded mantissa *)
  assert (Hdm2 : Zdigits2 m2 <= 53 - e - k).
  { apply Zdigits2_le; [lia|]. split; [done|].
    assert (HQ : 2 ^ (53 - e - k) * A = 9007199254740992 * P).
    { unfold A, P. rewrite <- H53, <- !Z.pow_add_r by lia. f_equal. lia. }
    apply (Z.mul_lt_mono_pos_r A); [lia|]. rewrite HQ. lia. }
  assert (Hdm0 : 0 <= Zdigits2 m2) by (destruct m2; cbn; lia).
  assert (He3 : e + -39 + k + k2 <= -39) by lia.
  assert (Hk20 : 0 <= k2) by lia.
  set (e3 := e + -39 + k + k2) in *.
  set (B := 2 ^ k2) in *.
  set (C := 2 ^ (- e3)).
  assert (HB : 0 < B) by (apply pow2_pos; lia).
  assert (HC : 0 < C) by (apply pow2_pos; lia).
  assert (HABC : A * B * C = 549755813888 * P).
  { unfold A, B, C, P. rewrite <- H39, <- !Z.pow_add_r by lia. f_equal. lia. }
  assert (Hm3C : m3 < 9000 * C).
  { apply (Z.mul_lt_mono_pos_r (A * B)); [lia|].
    replace (9000 * C * (A * B)) with (9000 * (A * B * C)) by lia.
    rewrite HABC.
    apply Z.le_lt_trans with (m2 * A); [|lia].
    replace (m3 * (A * B)) with (m3 * B * A) by lia.
    apply Z.mul_le_mono_nonneg_r; lia. }
  destruct m3 as [|m'|m']; [| |lia].
  - exists 0. split; [lia|reflexivity].
  - replace (e3 <=? emax - prec) with true
      by (symmetry; apply Z.leb_le; unfold emax, prec; lia).
    cbn [Math_floor].
    replace (0 <=? e3) with false by (symmetry; apply Z.leb_gt; lia).
    cbn [cond_Zopp].
    exists (Z.shiftr (Z.pos m') (- e3)). split; [|reflexivity].
    rewrite Z.shiftr_div_pow2 by lia. fold C. split.
    + apply Z.div_pos; lia.
    + assert (Z.pos m' / C < 9000); [|lia].
      apply Z.div_lt_upper_bound; lia.
Qed.


Lemma initial_balance_ok_all :
  forallb initial_balance_ok (seq 0 (Z.to_nat 9000)) = true.
Proof. vm_compute. reflexivity. Qed.

Lemma initial_balance_ok_range q :
  0 <= q <= 8999 -> initial_balance_ok (Z.to_nat q) = true.
Proof.
  intros Hq. pose proof initial_balance_ok_all as Hall.
  rewrite forallb_forall in Hall. apply Hall, in_seq. lia.
Qed.

(** [1000 + Math.floor(Math.random() * 9000)] for every double
    [Math.random()] can return. *)
Lemma initial_balance random :
  valid_binary prec emax random = true ->
  SFleb (of_Z 0) random = true ->
  SFltb random (of_Z 1) = true ->
  exists q, 0 <= q <= 8999 /\
    SFadd prec emax (of_Z 1000) (Math_floor (SFmul prec emax random (of_Z 9000)))
    = SFadd prec emax (of_Z 1000) (of_Z q).
Proof.
  intros Hvalid Hge Hlt. destruct random as [s|s| |s m e].
  - exists 0. split; [lia|]. by destruct s.
  - destruct s; discriminate.
  - discriminate.
  - destruct s; [discriminate|].
    destruct (valid_below_one _ _ Hvalid Hlt) as [He Hm].
    destruct (floor_random_9000 m e He Hm) as (q & Hq & ->). by exists q.
Qed.

(** C1, amended. A successful registration stores, under the trimmed
    username, a record with the encoded password, a balance that is a whole
    number from 1000 to 9999 (for every double below one that
    [Math.random()] may return) and exactly one transaction: a credit of
    1000, "Initial deposit", dated now, whatever the balance is. *)
Theorem register_creates_record field p c random now ls ls' :
  valid_binary prec emax random = true ->
  SFleb (of_Z 0) random = true ->
  SFltb random (of_Z 1) = true ->
  registerForm_onsubmit field p c random now ls = (Navigate "dashboard.html", ls') ->
  exists encoded q,
    btoa p = Ok encoded /\ 0 <= q <= 8999 /\
    stored ls' !! trim field =
      Some {| password := encoded;
              balance := VNum (of_Z (1000 + q));
              transactions :=
                [ {| type := credit; amount := VNum (of_Z 1000);
                     date := now; desc := js "Initial deposit" |} ] |} /\
    js_le (VNum (of_Z 1000)) (VNum (of_Z (1000 + q))) = true /\
    js_le (VNum (of_Z (1000 + q))) (VNum (of_Z 9999)) = true /\
    getSession ls' = Ok (Some (trim field)).
Proof.
  intros Hvalid Hge Hlt Hreg.
  apply register_success in Hreg
    as (_ & _ & users & encoded & _ & _ & Hp & ->).
  destruct (initial_balance _ Hvalid Hge Hlt) as (q & Hq & Hbal).
  pose proof (initial_balance_ok_range q Hq) as Hok.
  unfold initial_balance_ok in Hok. rewrite Z2Nat.id in Hok by lia.
  apply andb_true_iff in Hok as [Hok Hle2].
  apply andb_true_iff in Hok as [Hok Hle1].
  apply andb_true_iff in Hok as [Hsum Hfin].
  apply bool_decide_eq_true in Hsum. rewrite Hsum in Hfin, Hle1, Hle2.
  exists encoded, q. repeat split; try done; try lia.
  rewrite stored_setSession, stored_setUsers, lookup_fmap, lookup_insert_eq.
  unfold new_record. rewrite Hbal, Hsum. cbn [fmap option_fmap option_map].
  unfold json_user. cbn [password balance transactions].
  f_equal. f_equal.
  destruct (of_Z (1000 + q)); try discriminate. reflexivity.
Qed.

Lemma register_creates_record_witness :
  exists encoded q,
    btoa (js "a") = Ok encoded /\ 0 <= q <= 8999 /\
    stored (snd (registerForm_onsubmit (js " alice ") (js "a") (js "a")
                   random_half noon empty_storage)) !! trim (js " alice ") =
      Some {| password := encoded;
              balance := VNum (of_Z (1000 + q));
              transactions :=
                [ {| type := credit; amount := VNum (of_Z 1000);
                     date := noon; desc := js "Initial deposit" |} ] |} /\
    js_le (VNum (of_Z 1000)) (VNum (of_Z (1000 + q))) = true /\
    js_le (VNum (of_Z (1000 + q))) (VNum (of_Z 9999)) = true /\
    getSession (snd (registerForm_onsubmit (js " alice ") (js "a") (js "a")
                       random_half noon empty_storage))
    = Ok (Some (trim (js " alice "))).
Proof.
  apply (register_creates_record (js " alice ") (js "a") (js "a") random_half noon
           empty_storage).
  - vm_compute. reflexivity.
  - vm_compute. reflexivity.
  - vm_compute. reflexivity.
  - vm_compute. reflexivity.
Defined.

(** * Further properties of the script *)

(** ** Writing and reading the store *)

Lemma json_number_finite s m e :
  json_number (VNum (S754_finite s m e)) = VNum (S754_finite s m e).
Proof. reflexivity. Qed.

(** X1. What [getUsers] reads from a store that [setUsers] wrote can be
    written back and read again without change, and writing the users
    leaves the session key alone. What is read has the usernames that were
    written, each with its password, as many transactions, and its balance
    when that is [null] or a finite non-zero number. *)
Theorem users_write_read users ls :
  exists read,
    getUsers (setUsers users ls) = Ok read /\
    getUsers (setUsers read (setUsers users ls)) = Ok read /\
    getSession (setUsers users ls) = getSession ls /\
    forall k,
      match users !! k with
      | None => read !! k = None
      | Some u =>
          exists u', read !! k = Some u' /\
            password u' = password u /\
            length (transactions u') = length (transactions u) /\
            (forall s m e, balance u = VNum (S754_finite s m e) ->
                           balance u' = balance u) /\
            (balance u = VNull -> balance u' = VNull)
      end.
Proof.
  exists (json_user <$> users). repeat split.
  - rewrite getUsers_setUsers. f_equal.
    rewrite <- map_fmap_compose. apply map_fmap_ext.
    intros _ u _. apply json_user_idemp.
  - intros k. rewrite lookup_fmap. destruct (users !! k) as [u|]; [|done].
    exists (json_user u). cbn. repeat split.
    + by rewrite length_fmap.
    + by intros s m e ->.
    + by intros ->.
Qed.

(** ** The dashboard *)

(** X2. After the logout button the dashboard redirects to [index.html],
    whatever the storage held (a corrupt users key included: it is not
    read); logout leaves the users key as it was. *)
Theorem logout_then_dashboard ls :
  dashboard (snd (logout_btn_onclick ls)) = Redirected "index.html" /\
  bank_users (snd (logout_btn_onclick ls)) = bank_users ls.
Proof. split; reflexivity. Qed.

(** X3. A session that names a user without a record in the store (the
    users key was cleared, say) makes the dashboard script die with a
    [TypeError] (at [users[session].balance], or at [.transactions.slice]
    when the name is an inherited one); it does not redirect. *)
Theorem dashboard_missing_record ls name users :
  getSession ls = Ok (Some name) ->
  name ≠ [] ->
  getUsers ls = Ok users ->
  users !! name = None ->
  dashboard ls = Crashed TypeError.
Proof.
  intros Hs Hne Hu Hnone. unfold dashboard. rewrite Hs, Hu.
  destruct name as [|c name]; [done|].
  unfold get. rewrite Hnone. by case_bool_decide.
Qed.

Lemma dashboard_missing_record_witness :
  dashboard {| bank_users := None;
               bank_session := Some (Json (Some (js "alice"))) |}
  = Crashed TypeError.
Proof.
  apply (dashboard_missing_record _ (js "alice") ∅).
  - reflexivity.
  - vm_compute. discriminate.
  - reflexivity.
  - apply lookup_empty.
Defined.

(** X4. The dashboard of a stored session user shows that username, the
    stored balance, and the stored transactions newest first: the entry
    shown at position [i] is the stored entry at position
    [length - 1 - i]. *)
Theorem dashboard_shows_record ls name users u :
  getSession ls = Ok (Some name) ->
  name ≠ [] ->
  getUsers ls = Ok users ->
  users !! name = Some u ->
  exists v,
    dashboard ls = Rendered {| page_users := users; page_session := name |} v /\
    user_name v = name /\
    account_balance v = balance u /\
    length (transaction_list v) = length (transactions u) /\
    forall i, (i < length (transactions u))%nat ->
      transaction_list v !! i
      = transactions u !! (length (transactions u) - 1 - i)%nat.
Proof.
  intros Hs Hne Hu Hrec. unfold dashboard. rewrite Hs, Hu.
  destruct name as [|c name]; [done|].
  rewrite (get_own _ _ _ Hrec). eexists. split; [reflexivity|]. cbn.
  repeat split.
  - apply length_rev.
  - intros i Hi. rewrite rev_alt.
    change (rev_append (transactions u) []) with (reverse (transactions u)).
    rewrite reverse_lookup by done. f_equal. lia.
Qed.

Lemma dashboard_shows_record_witness :
  exists v,
    dashboard two_users_storage
    = Rendered {| page_users := two_users; page_session := js "alice" |} v /\
    user_name v = js "alice" /\
    account_balance v = balance (account "YQ==" 1000) /\
    length (transaction_list v) = length (transactions (account "YQ==" 1000)) /\
    forall i, (i < length (transactions (account "YQ==" 1000)))%nat ->
      transaction_list v !! i
      = transactions (account "YQ==" 1000)
          !! (length (transactions (account "YQ==" 1000)) - 1 - i)%nat.
Proof.
  apply (dashboard_shows_record two_users_storage (js "alice") two_users).
  - reflexivity.
  - vm_compute. discriminate.
  - reflexivity.
  - vm_compute. reflexivity.
Defined.

(** ** Login *)

(** X5. Login never writes the users key, and it navigates to the
    dashboard only when the store holds a record under the trimmed username
    whose stored password is the encoding of the password typed; the
    session is then that username. *)
Theorem login_sound field p ls out ls' :
  loginForm_onsubmit field p ls = (out, ls') ->
  bank_users ls' = bank_users ls /\
  forall url, out = Navigate url ->
    url = "dashboard.html"%string /\
    exists users u,
      getUsers ls = Ok users /\
      users !! trim field = Some u /\
      btoa p = Ok (password u) /\
      ls' = setSession (trim field) ls.
Proof.
  unfold loginForm_onsubmit.
  destruct (getUsers ls) as [users|e] eqn:Hls; [|by intros [= <- <-]].
  destruct (get users (trim field)) as [u| |] eqn:Hu.
  - apply get_Own_inv in Hu.
    destruct (btoa p) as [encoded|] eqn:Hp; [|by intros [= <- <-]].
    case_bool_decide as Hpw; intros [= <- <-]; [done|].
    split; [done|]. intros url [= <-]. split; [done|].
    exists users, u. by rewrite Hpw.
  - destruct (btoa p); by intros [= <- <-].
  - by intros [= <- <-].
Qed.

Lemma login_sound_witness :
  bank_users (snd (loginForm_onsubmit (js "bob ") (js "b") two_users_storage))
  = bank_users two_users_storage /\
  forall url,
    fst (loginForm_onsubmit (js "bob ") (js "b") two_users_storage) = Navigate url ->
    url = "dashboard.html"%string /\
    exists users u,
      getUsers two_users_storage = Ok users /\
      users !! trim (js "bob ") = Some u /\
      btoa (js "b") = Ok (password u) /\
      snd (loginForm_onsubmit (js "bob ") (js "b") two_users_storage)
      = setSession (trim (js "bob ")) two_users_storage.
Proof.
  apply (login_sound (js "bob ") (js "b") two_users_storage).
  apply surjective_pairing.
Defined.

(** X6. An unknown username is answered with "Invalid username or
    password." whatever the password is (it is not even encoded); a name
    inherited from [Object.prototype] that has no record never logs in
    either: the answer is the same message, or the exception of [btoa]. The
    storage stays as it was. *)
Theorem login_without_record field p ls users :
  getUsers ls = Ok users ->
  users !! trim field = None ->
  (trim field ∉ Object_prototype_names ->
   loginForm_onsubmit field p ls
   = (ShowError "Invalid username or password.", ls)) /\
  (trim field ∈ Object_prototype_names ->
   loginForm_onsubmit field p ls
   = (match btoa p with
      | Ok _ => ShowError "Invalid username or password."
      | Throw e => Uncaught e
      end, ls)).
Proof.
  intros Hls Hnone. unfold loginForm_onsubmit, get. rewrite Hls, Hnone.
  split; intros Hname.
  - by rewrite bool_decide_eq_false_2.
  - rewrite bool_decide_eq_true_2 by done. by destruct (btoa p).
Qed.

Lemma login_without_record_witness :
  loginForm_onsubmit (js "carol") (js "x") two_users_storage
  = (ShowError "Invalid username or password.", two_users_storage).
Proof.
  refine (proj1 (login_without_record (js "carol") (js "x") two_users_storage
                   two_users _ _) _).
  - reflexivity.
  - vm_compute. reflexivity.
  - vm_compute. intros H.
    repeat (apply elem_of_cons in H as [H|H]; [discriminate H|]).
    by apply elem_of_nil in H.
Defined.

(** ** The password encoding is reversible *)

Lemma base64_digits_ok : forallb base64_digit_ok (seq 0 64) = true.
Proof. vm_compute. reflexivity. Qed.

Lemma base64_digit_index i :
  (i < 64)%N ->
  base64_index (base64_digit i) = i /\ (base64_digit i =? pad)%N = false.
Proof.
  intros Hi. pose proof base64_digits_ok as Hall.
  rewrite forallb_forall in Hall.
  specialize (Hall (N.to_nat i)). unfold base64_digit_ok in Hall.
  rewrite N2Nat.id in Hall.
  assert (Hin : In (N.to_nat i) (seq 0 64)) by (apply in_seq; lia).
  apply Hall, andb_true_iff in Hin as [H1 H2].
  apply N.eqb_eq in H1. apply negb_true_iff in H2. done.
Qed.

Ltac sextets :=
  repeat match goal with
    | |- context [base64_index (base64_digit ?i)] =>
        let H := fresh in
        assert (H : (i < 64)%N)
          by (zify; Z.to_euclidean_division_equations; lia);
        destruct (base64_digit_index i H) as [-> _]; clear H
    end.

Lemma base64_decode_3 a b c rest :
  (a <= 255)%N -> (b <= 255)%N -> (c <= 255)%N ->
  base64_decode (base64 (a :: b :: c :: rest))
  = a :: b :: c :: base64_decode (base64 rest).
Proof.
  intros Ha Hb Hc. cbn [base64 base64_decode].
  assert (H3 : (b mod 16 * 4 + c / 64 < 64)%N)
    by (zify; Z.to_euclidean_division_equations; lia).
  assert (H4 : (c mod 64 < 64)%N)
    by (zify; Z.to_euclidean_division_equations; lia).
  destruct (base64_digit_index _ H3) as [_ ->].
  destruct (base64_digit_index _ H4) as [_ ->].
  sextets. f_equal; [|f_equal; [|f_equal]];
    zify; Z.to_euclidean_division_equations; lia.
Qed.

Lemma latin1_forallb s : forallb (fun c => (c <=? 255)%N) s = true -> latin1 s.
Proof.
  intros Hall. apply List.Forall_forall. intros c Hc.
  rewrite forallb_forall in Hall. by apply N.leb_le, Hall.
Qed.

Lemma base64_decode_base64 s :
  latin1 s -> base64_decode (base64 s) = s.
Proof.
  intros Hs.
  assert (Hgen : forall n s, (length s <= n)%nat -> latin1 s ->
                             base64_decode (base64 s) = s).
  { clear s Hs. induction n as [|n IH]; intros s Hlen Hs.
    - destruct s; [done|cbn in Hlen; lia].
    - destruct s as [|a [|b [|c rest]]]; [done| | |].
      + apply Forall_cons in Hs as [Ha _]. cbn [base64 base64_decode].
        assert (H2 : (a mod 4 * 16 < 64)%N)
          by (zify; Z.to_euclidean_division_equations; lia).
        rewrite N.eqb_refl. sextets. f_equal.
        zify; Z.to_euclidean_division_equations; lia.
      + apply Forall_cons in Hs as [Ha Hs]. apply Forall_cons in Hs as [Hb _].
        cbn [base64 base64_decode].
        assert (H3 : (b mod 16 * 4 < 64)%N)
          by (zify; Z.to_euclidean_division_equations; lia).
        destruct (base64_digit_index _ H3) as [_ ->].
        rewrite N.eqb_refl. sextets. f_equal; [|f_equal];
          zify; Z.to_euclidean_division_equations; lia.
      + apply Forall_cons in Hs as [Ha Hs]. apply Forall_cons in Hs as [Hb Hs].
        apply Forall_cons in Hs as [Hc Hs].
        rewrite base64_decode_3 by done. do 3 f_equal.
        apply IH; [cbn in Hlen; lia|done]. }
  by apply (Hgen (length s)).
Qed.

Lemma btoa_Ok_inv p encoded : btoa p = Ok encoded -> latin1 p /\ encoded = base64 p.
Proof.
  unfold btoa. destruct (forallb _ p) eqn:Hall; [|discriminate].
  intros [= <-]. split; [|done]. by apply latin1_forallb.
Qed.

Lemma btoa_inj p p' encoded :
  btoa p = Ok encoded -> btoa p' = Ok encoded -> p = p'.
Proof.
  intros [Hp ->]%btoa_Ok_inv [Hp' Heq]%btoa_Ok_inv.
  rewrite <- (base64_decode_base64 p Hp), <- (base64_decode_base64 p' Hp').
  by rewrite Heq.
Qed.

(** X7. The password encoding is reversible: whenever [btoa] encodes a
    password, decoding the base64 text it returns gives the password back.
    What the store keeps as [password] determines the password typed. *)
Theorem base64_round_trip p encoded :
  btoa p = Ok encoded -> base64_decode encoded = p.
Proof.
  intros [Hp ->]%btoa_Ok_inv. by apply base64_decode_base64.
Qed.

Lemma base64_round_trip_witness :
  base64_decode (base64 (js "hunter2")) = js "hunter2".
Proof.
  apply (base64_round_trip (js "hunter2") (base64 (js "hunter2"))).
  vm_compute. reflexivity.
Defined.

(** X8. After a successful registration no other password logs in under
    that username: login with a different password is answered with
    "Invalid username or password.", or dies in [btoa] when the password
    has a code unit above 255; either way the storage, and so the session,
    stays as registration left it. *)
Theorem login_wrong_password field p c random now ls ls' p' :
  registerForm_onsubmit field p c random now ls = (Navigate "dashboard.html", ls') ->
  p' ≠ p ->
  loginForm_onsubmit field p' ls'
  = (match btoa p' with
     | Ok _ => ShowError "Invalid username or password."
     | Throw e => Uncaught e
     end, ls').
Proof.
  intros Hreg Hne.
  apply register_success in Hreg
    as (_ & _ & users & encoded & _ & _ & Hp & ->).
  unfold loginForm_onsubmit. rewrite stored_after_register.
  unfold get. rewrite lookup_fmap, lookup_insert_eq. cbn.
  destruct (btoa p') as [encoded'|] eqn:Hp'; [|done].
  rewrite bool_decide_eq_true_2; [done|].
  intros <-. apply Hne. by apply (btoa_inj p' p encoded).
Qed.

Lemma login_wrong_password_witness :
  loginForm_onsubmit (js "carol") (js "X")
    (snd (registerForm_onsubmit (js "carol") (js "x") (js "x") random_half noon
            two_users_storage))
  = (match btoa (js "X") with
     | Ok _ => ShowError "Invalid username or password."
     | Throw e => Uncaught e
     end,
     snd (registerForm_onsubmit (js "carol") (js "x") (js "x") random_half noon
            two_users_storage)).
Proof.
  apply (login_wrong_password (js "carol") (js "x") (js "x") random_half noon
           two_users_storage).
  - vm_compute. reflexivity.
  - vm_compute. discriminate.
Defined.

(** ** Transfers that are turned down, and transfers that go through *)

(** X9. Whenever the transfer form answers with a message, the message is
    one of the four of the handler, and the page's users, the session and
    the storage are exactly as before. *)
Theorem transfer_rejected to_field amount_ now pg ls msg pg' ls' :
  transferForm_onsubmit to_field amount_ now pg ls = (ShowError msg, pg', ls') ->
  pg' = pg /\ ls' = ls /\
  (msg = "Recipient not found." \/ msg = "Cannot transfer to yourself." \/
   msg = "Invalid amount." \/ msg = "Insufficient funds.")%string.
Proof.
  unfold transferForm_onsubmit.
  destruct (truthy (get (page_users pg) (trim to_field))); cbn [negb];
    [|intros [= <- <- <-]; tauto].
  case_bool_decide as Hself; [intros [= <- <- <-]; tauto|].
  destruct (SFleb amount_ (of_Z 0) || is_nan amount_); [intros [= <- <- <-]; tauto|].
  destruct (get (page_users pg) (page_session pg)) as [s| |]; [| |discriminate].
  - destruct (js_lt (balance s) (VNum amount_)); [intros [= <- <- <-]; tauto|].
    destruct (get _ (trim to_field)); discriminate.
  - destruct (get (page_users pg) (trim to_field)); discriminate.
Qed.

Lemma transfer_rejected_witness :
  {| page_users := two_users; page_session := js "alice" |}
  = {| page_users := two_users; page_session := js "alice" |} /\
  two_users_storage = two_users_storage /\
  ("Insufficient funds." = "Recipient not found." \/
   "Insufficient funds." = "Cannot transfer to yourself." \/
   "Insufficient funds." = "Invalid amount." \/
   "Insufficient funds." = "Insufficient funds.")%string.
Proof.
  apply (transfer_rejected (js "bob") (of_Z 1001) noon
           {| page_users := two_users; page_session := js "alice" |}
           two_users_storage).
  vm_compute. reflexivity.
Defined.

(** X10. The order of the checks. An unknown recipient is "Recipient not
    found." whatever the amount; the sender's own name is "Cannot transfer
    to yourself." whatever the amount; and a positive amount above the
    sender's balance, to another known recipient, is "Insufficient funds.".
    Nothing changes in any of the three. *)
Theorem transfer_checks to_field amount_ now pg ls :
  (get (page_users pg) (trim to_field) = Undefined ->
   transferForm_onsubmit to_field amount_ now pg ls
   = (ShowError "Recipient not found.", pg, ls)) /\
  (is_Some (page_users pg !! page_session pg) ->
   trim to_field = page_session pg ->
   transferForm_onsubmit to_field amount_ now pg ls
   = (ShowError "Cannot transfer to yourself.", pg, ls)) /\
  (forall s,
     page_users pg !! page_session pg = Some s ->
     truthy (get (page_users pg) (trim to_field)) = true ->
     trim to_field ≠ page_session pg ->
     SFltb (of_Z 0) amount_ = true ->
     js_lt (balance s) (VNum amount_) = true ->
     transferForm_onsubmit to_field amount_ now pg ls
     = (ShowError "Insufficient funds.", pg, ls)).
Proof.
  unfold transferForm_onsubmit. repeat split.
  - by intros ->.
  - intros [s Hs] ->. rewrite (get_own _ _ _ Hs). cbn [truthy negb].
    by rewrite bool_decide_eq_true_2.
  - intros s Hs Hto Hne Hpos Hlt. rewrite Hto. cbn [negb].
    rewrite bool_decide_eq_false_2 by done.
    replace (SFleb amount_ (of_Z 0) || is_nan amount_) with false.
    + by rewrite (get_own _ _ _ Hs), Hlt.
    + symmetry. apply orb_false_iff.
      unfold SFltb, SFleb in *. change (of_Z 0) with (S754_zero false) in *.
      destruct amount_ as [[]|[]| |[] m e]; cbn in Hpos |- *; done.
Qed.

Lemma transfer_checks_witness :
  transferForm_onsubmit (js "nobody") (of_Z 5) noon
    {| page_users := two_users; page_session := js "alice" |} two_users_storage
  = (ShowError "Recipient not found.",
     {| page_users := two_users; page_session := js "alice" |}, two_users_storage)
  /\ transferForm_onsubmit (js " alice") (of_Z 5) noon
       {| page_users := two_users; page_session := js "alice" |} two_users_storage
     = (ShowError "Cannot transfer to yourself.",
        {| page_users := two_users; page_session := js "alice" |}, two_users_storage)
  /\ transferForm_onsubmit (js "bob") (of_Z 1001) noon
       {| page_users := two_users; page_session := js "alice" |} two_users_storage
     = (ShowError "Insufficient funds.",
        {| page_users := two_users; page_session := js "alice" |}, two_users_storage).
Proof.
  split; [|split].
  - apply (proj1 (transfer_checks (js "nobody") (of_Z 5) noon
                    {| page_users := two_users; page_session := js "alice" |}
                    two_users_storage)).
    vm_compute. reflexivity.
  - apply (proj1 (proj2 (transfer_checks (js " alice") (of_Z 5) noon
                    {| page_users := two_users; page_session := js "alice" |}
                    two_users_storage))).
    + vm_compute. by eexists.
    + vm_compute. reflexivity.
  - apply (proj2 (proj2 (transfer_checks (js "bob") (of_Z 1001) noon
                    {| page_users := two_users; page_session := js "alice" |}
                    two_users_storage)) (account "YQ==" 1000)).
    + vm_compute. reflexivity.
    + vm_compute. reflexivity.
    + vm_compute. discriminate.
    + vm_compute. reflexivity.
    + vm_compute. reflexivity.
Defined.

(** X11. A transfer of a positive amount, not above the sender's balance,
    to another user with a record goes through: the handler ends in the
    reload, and the storage then holds the sender with the difference as
    balance and the debit appended, the recipient with the sum and the
    credit appended (same amount, same date), and every other record as
    [JSON.stringify] writes it; the session key is not touched. *)
Theorem transfer_effect to_field amount_ now pg ls s r :
  page_users pg !! page_session pg = Some s ->
  page_users pg !! trim to_field = Some r ->
  trim to_field ≠ page_session pg ->
  SFltb (of_Z 0) amount_ = true ->
  js_lt (balance s) (VNum amount_) = false ->
  exists pg' ls',
    transferForm_onsubmit to_field amount_ now pg ls = (Reload, pg', ls') /\
    bank_session ls' = bank_session ls /\
    stored ls' !! page_session pg =
      Some (json_user
              {| password := password s;
                 balance := js_sub (balance s) (VNum amount_);
                 transactions :=
                   transactions s
                   ++ [ {| type := debit; amount := VNum amount_; date := now;
                           desc := js "Transfer to " ++ trim to_field |} ] |}) /\
    stored ls' !! trim to_field =
      Some (json_user
              {| password := password r;
                 balance := js_add (balance r) (VNum amount_);
                 transactions :=
                   transactions r
                   ++ [ {| type := credit; amount := VNum amount_; date := now;
                           desc := js "Transfer from " ++ page_session pg |} ] |}) /\
    forall k, k ≠ page_session pg -> k ≠ trim to_field ->
              stored ls' !! k = json_user <$> page_users pg !! k.
Proof.
  intros Hs Hr Hne Hpos Hlt.
  destruct (transferForm_onsubmit to_field amount_ now pg ls) as [[out pg'] ls'] eqn:Htr.
  assert (out = Reload) as ->.
  { revert Htr. unfold transferForm_onsubmit.
    rewrite (get_own _ _ _ Hr). cbn [truthy negb].
    rewrite bool_decide_eq_false_2 by done.
    replace (SFleb amount_ (of_Z 0) || is_nan amount_) with false.
    - rewrite (get_own _ _ _ Hs), Hlt.
      rewrite get_insert_ne, (get_own _ _ _ Hr) by done. by intros [= <- _ _].
    - symmetry. apply orb_false_iff.
      unfold SFltb, SFleb in *. change (of_Z 0) with (S754_zero false) in *.
      destruct amount_ as [[]|[]| |[] m e]; cbn in Hpos |- *; done. }
  apply transfer_success in Htr
    as (s0 & r0 & Hs0 & Hr0 & _ & _ & _ & _ & _ & Hus & ->).
  rewrite Hs in Hs0. rewrite Hr in Hr0. simplify_eq.
  exists pg', (setUsers (page_users pg') ls).
  split; [done|]. split; [done|].
  rewrite stored_setUsers, Hus. repeat split.
  - rewrite lookup_fmap, lookup_insert_ne, lookup_insert_eq by done. done.
  - rewrite lookup_fmap, lookup_insert_eq. done.
  - intros k Hk1 Hk2. by rewrite lookup_fmap, !lookup_insert_ne.
Qed.

Lemma transfer_effect_witness :
  exists pg' ls',
    transferForm_onsubmit (js "bob") (of_Z 250) noon
      {| page_users := two_users; page_session := js "alice" |} two_users_storage
    = (Reload, pg', ls') /\
    stored ls' !! js "alice" =
      Some (json_user
              {| password := password (account "YQ==" 1000);
                 balance := js_sub (balance (account "YQ==" 1000)) (VNum (of_Z 250));
                 transactions :=
                   transactions (account "YQ==" 1000)
                   ++ [ {| type := debit; amount := VNum (of_Z 250); date := noon;
                           desc := js "Transfer to " ++ trim (js "bob") |} ] |}).
Proof.
  destruct (transfer_effect (js "bob") (of_Z 250) noon
              {| page_users := two_users; page_session := js "alice" |}
              two_users_storage (account "YQ==" 1000) (account "Yg==" 3000))
    as (pg' & ls' & H1 & _ & H2 & _).
  - vm_compute. reflexivity.
  - vm_compute. reflexivity.
  - vm_compute. discriminate.
  - vm_compute. reflexivity.
  - vm_compute. reflexivity.
  - exists pg', ls'. split; [exact H1|exact H2].
Defined.

(** ** The admin panel *)

(** X12. A wrong admin password is answered with "Incorrect admin
    password." without the store being read (so also on a corrupt store).
    With the right password and a store that parses, the panel lists every
    stored user exactly once, each with its stored balance, and nothing
    else. *)
Theorem admin_listing ls :
  (forall pass, pass ≠ ADMIN_PASSWORD ->
     adminForm_onsubmit pass ls = ShowError "Incorrect admin password.") /\
  (forall users, getUsers ls = Ok users ->
     exists rows,
       adminForm_onsubmit ADMIN_PASSWORD ls = Listed rows /\
       length rows = size users /\
       NoDup rows.*1 /\
       forall k b, (k, b) ∈ rows <-> exists u, users !! k = Some u /\ balance u = b).
Proof.
  split.
  - intros pass Hpass. unfold adminForm_onsubmit.
    by rewrite bool_decide_eq_true_2.
  - intros users Hls. unfold adminForm_onsubmit.
    rewrite bool_decide_eq_false_2 by (intros H; by apply H). rewrite Hls.
    eexists. split; [reflexivity|]. repeat split.
    + by rewrite length_fmap, length_map_to_list.
    + rewrite <- list_fmap_compose.
      replace (fst ∘ prod_map id balance) with (fst : jsstring * user -> jsstring)
        by done.
      apply NoDup_fst_map_to_list.
    + intros Hin. apply list_elem_of_fmap in Hin as ([k' u] & [= -> ->] & Hin).
      apply elem_of_map_to_list in Hin. by exists u.
    + intros (u & Hu & <-). apply list_elem_of_fmap.
      exists (k, u). split; [done|]. by apply elem_of_map_to_list.
Qed.

Lemma admin_listing_witness :
  adminForm_onsubmit (js "letmein") corrupt_storage
  = ShowError "Incorrect admin password." /\
  exists rows,
    adminForm_onsubmit ADMIN_PASSWORD two_users_storage = Listed rows /\
    length rows = size two_users.
Proof.
  split.
  - apply (proj1 (admin_listing corrupt_storage)). vm_compute. discriminate.
  - destruct (proj2 (admin_listing two_users_storage) two_users eq_refl)
      as (rows & H1 & H2 & _).
    exists rows. split; [exact H1|exact H2].
Defined.

(** ** More on registration *)

(** X13. A successful registration adds exactly one record, under a
    username that had none, and leaves every other stored record (balance,
    password and transactions) as it was, on a store as the script writes
    it. *)
Theorem register_adds_one field p c random now ls ls' :
  canonical ls ->
  registerForm_onsubmit field p c random now ls = (Navigate "dashboard.html", ls') ->
  stored ls !! trim field = None /\
  is_Some (stored ls' !! trim field) /\
  (forall k, k ≠ trim field -> stored ls' !! k = stored ls !! k) /\
  size (stored ls') = S (size (stored ls)).
Proof.
  intros Hc Hreg. apply register_result in Hreg as (encoded & Hnew & ->).
  rewrite stored_setSession, stored_setUsers.
  repeat split; [done| | |].
  - rewrite lookup_fmap, lookup_insert_eq. by eexists.
  - intros k Hk. rewrite lookup_fmap, lookup_insert_ne by done.
    by rewrite <- lookup_fmap, Hc.
  - by rewrite map_size_fmap, map_size_insert_None.
Qed.

Lemma canonical_two_users_storage : canonical two_users_storage.
Proof. vm_compute. reflexivity. Qed.

Lemma register_adds_one_witness :
  stored two_users_storage !! trim (js "carol") = None /\
  is_Some (stored (snd (registerForm_onsubmit (js "carol") (js "x") (js "x")
                          random_half noon two_users_storage))
           !! trim (js "carol")) /\
  (forall k, k ≠ trim (js "carol") ->
     stored (snd (registerForm_onsubmit (js "carol") (js "x") (js "x")
                    random_half noon two_users_storage)) !! k
     = stored two_users_storage !! k) /\
  size (stored (snd (registerForm_onsubmit (js "carol") (js "x") (js "x")
                       random_half noon two_users_storage)))
  = S (size (stored two_users_storage)).
Proof.
  apply (register_adds_one (js "carol") (js "x") (js "x") random_half noon
           two_users_storage).
  - exact canonical_two_users_storage.
  - vm_compute. reflexivity.
Defined.

(** X14. A username field of nothing but white space registers: a record
    is stored under the empty username and the session is set to it. But
    the empty string is falsy, so the dashboard that registration navigates
    to redirects to [index.html] at once. *)
Theorem register_blank_username field p random now ls users :
  trim field = [] ->
  getUsers ls = Ok users ->
  users !! [] = None ->
  latin1 p ->
  exists ls',
    registerForm_onsubmit field p p random now ls = (Navigate "dashboard.html", ls') /\
    is_Some (stored ls' !! []) /\
    getSession ls' = Ok (Some []) /\
    dashboard ls' = Redirected "index.html".
Proof.
  intros Hblank Hls Hnone Hp. unfold registerForm_onsubmit.
  rewrite Hblank, Hls.
  rewrite bool_decide_eq_false_2 by (intros H; by apply H).
  unfold get. rewrite Hnone. rewrite bool_decide_eq_false_2.
  2:{ vm_compute. intros H.
      repeat (apply elem_of_cons in H as [H|H]; [discriminate H|]).
      by apply elem_of_nil in H. }
  cbn [truthy]. rewrite (latin1_btoa _ Hp).
  eexists. split; [reflexivity|]. repeat split.
  rewrite stored_setSession, stored_setUsers, lookup_fmap, lookup_insert_eq.
  by eexists.
Qed.

Lemma register_blank_username_witness :
  exists ls',
    registerForm_onsubmit (js "   ") (js "x") (js "x") random_half noon
      two_users_storage = (Navigate "dashboard.html", ls') /\
    is_Some (stored ls' !! []) /\
    getSession ls' = Ok (Some []) /\
    dashboard ls' = Redirected "index.html".
Proof.
  apply (register_blank_username (js "   ") (js "x") random_half noon
           two_users_storage two_users).
  - vm_compute. reflexivity.
  - reflexivity.
  - vm_compute. reflexivity.
  - apply latin1_forallb. vm_compute. reflexivity.
Defined.

(** ** Trimming the username *)

Lemma trim_start_split s :
  exists l, s = l ++ trim_start s /\ forallb is_white_space l = true.
Proof.
  induction s as [|c s (l & Hs & Hl)]; [by exists []|]. cbn [trim_start].
  destruct (is_white_space c) eqn:Hc.
  - exists (c :: l). split; [cbn; by f_equal|]. cbn. by rewrite Hc.
  - by exists [].
Qed.

Lemma trim_start_white l s :
  forallb is_white_space l = true -> trim_start (l ++ s) = trim_start s.
Proof.
  induction l as [|c l IH]; [done|]. cbn.
  intros [Hc Hl]%andb_true_iff. rewrite Hc. by apply IH.
Qed.

Lemma trim_start_all_white r :
  forallb is_white_space r = true -> trim_start r = [].
Proof.
  intros Hr. rewrite <- (app_nil_r r). by rewrite trim_start_white.
Qed.

Lemma trim_start_head s :
  match trim_start s with
  | [] => True
  | c :: _ => is_white_space c = false
  end.
Proof.
  induction s as [|c s IH]; [done|]. cbn [trim_start].
  by destruct (is_white_space c) eqn:Hc.
Qed.

Lemma trim_start_idemp s : trim_start (trim_start s) = trim_start s.
Proof.
  pose proof (trim_start_head s) as Hhead.
  destruct (trim_start s) as [|c t]; [done|]. cbn. by rewrite Hhead.
Qed.

(** What [trim] returns starts and ends with something else than white
    space, if it is not empty. *)
Lemma trim_fix_front s : trim_start (trim s) = trim s.
Proof.
  unfold trim.
  destruct (trim_start_split (rev (trim_start s))) as (l & Hsplit & _).
  apply (f_equal (@rev N)) in Hsplit.
  rewrite rev_involutive, rev_app_distr in Hsplit.
  pose proof (trim_start_head s) as Hhead.
  destruct (rev (trim_start (rev (trim_start s)))) as [|d v]; [done|].
  rewrite Hsplit in Hhead. cbn in Hhead |- *. by rewrite Hhead.
Qed.

Lemma trim_fix_back s : trim_start (rev (trim s)) = rev (trim s).
Proof. unfold trim. rewrite rev_involutive. apply trim_start_idemp. Qed.

Lemma rev_forallb (f : N -> bool) l : forallb f (rev l) = forallb f l.
Proof.
  induction l as [|c l IH]; [done|]. cbn.
  rewrite forallb_app, IH. cbn. by rewrite andb_true_r, andb_comm.
Qed.

(** X15. White space around the username does not count: for any string
    [s], putting white space before and after what [trim] makes of [s] and
    trimming again gives the same username. In particular trimming twice is
    trimming once, so that what registration stores as a key is its own
    trimming. *)
Theorem trim_surrounding l s r :
  forallb is_white_space l = true ->
  forallb is_white_space r = true ->
  trim (l ++ trim s ++ r) = trim s.
Proof.
  intros Hl Hr.
  pose proof (trim_fix_front s) as Hfront.
  pose proof (trim_fix_back s) as Hback.
  set (k := trim s) in *. unfold trim.
  rewrite trim_start_white by done.
  destruct k as [|c k'] eqn:Hk.
  - cbn [app]. by rewrite (trim_start_all_white r Hr).
  - assert (Hc : is_white_space c = false).
    { pose proof (trim_start_head (c :: k')) as Hhead.
      rewrite Hfront in Hhead. exact Hhead. }
    cbn [app trim_start]. rewrite Hc.
    change (c :: k' ++ r) with ((c :: k') ++ r).
    rewrite rev_app_distr, trim_start_white by (by rewrite rev_forallb).
    rewrite Hback. apply rev_involutive.
Qed.

Lemma trim_surrounding_witness :
  trim (js "  " ++ trim (js " bob smith ") ++ js " ") = trim (js " bob smith ").
Proof.
  apply (trim_surrounding (js "  ") (js " bob smith ") (js " ")).
  - vm_compute. reflexivity.
  - vm_compute. reflexivity.
Defined.

(** ** No overdraft *)

Lemma pos_iter_xO m d : Z.pos (Pos.iter xO m d) = Z.pos m * 2 ^ Z.pos d.
Proof.
  induction d as [|d IH] using Pos.peano_ind.
  - cbn. lia.
  - rewrite Pos.iter_succ, Pos2Z.inj_xO, IH, Pos2Z.inj_succ, Z.pow_succ_r by lia.
    lia.
Qed.

Lemma shl_align_fst mx ex ez :
  ez <= ex -> Z.pos (fst (shl_align mx ex ez)) = Z.pos mx * 2 ^ (ex - ez).
Proof.
  intros Hle. unfold shl_align.
  destruct (ez - ex) as [|d|d] eqn:Hd; cbn [fst].
  - replace (ex - ez) with 0 by lia. lia.
  - lia.
  - rewrite pos_iter_xO. f_equal. f_equal. lia.
Qed.

Lemma canonical_digits m e :
  canonical_mantissa prec emax m e = true ->
  -1074 <= e /\ Z.pos (digits2_pos m) <= 53 /\
  (-1074 < e -> Z.pos (digits2_pos m) = 53).
Proof.
  unfold canonical_mantissa, fexp, emin, prec, emax.
  intros H. apply Z.eqb_eq in H. lia.
Qed.

Lemma binary_round_not_negative m e :
  not_negative (binary_round prec emax false m e).
Proof.
  unfold binary_round. destruct (shl_align m e _) as [mz ez].
  destruct (binary_round_aux_exact mz ez)
    as (m2 & m3 & k & k2 & _ & _ & _ & _ & Hm3 & _ & ->).
  destruct m3 as [|m'|m']; [done| |lia].
  by destruct (_ <=? _).
Qed.

(** The difference of two positive doubles of which the first is not the
    smaller one. *)
Lemma SFsub_not_negative mx ex my ey :
  valid_binary prec emax (S754_finite false mx ex) = true ->
  valid_binary prec emax (S754_finite false my ey) = true ->
  SFltb (S754_finite false mx ex) (S754_finite false my ey) = false ->
  not_negative (SFsub prec emax (S754_finite false mx ex) (S754_finite false my ey)).
Proof.
  intros [Hx _]%andb_true_iff [Hy _]%andb_true_iff Hlt.
  apply canonical_digits in Hx as (Hex & Hdx & Hnx).
  apply canonical_digits in Hy as (Hey & Hdy & _).
  pose proof (digits2_pos_lower mx) as Hlx.
  pose proof (digits2_pos_upper my) as Huy.
  assert (Hmy : Z.pos my < 2 ^ 53).
  { eapply Z.lt_le_trans; [exact Huy|]. apply Z.pow_le_mono_r; lia. }
  cbn [SFsub cond_Zopp].
  assert (Hd : 0 <= Z.pos (fst (shl_align mx ex (Z.min ex ey)))
                    - Z.pos (fst (shl_align my ey (Z.min ex ey)))).
  { rewrite !shl_align_fst by lia.
    unfold SFltb, SFcompare in Hlt.
    destruct (Z.compare_spec ex ey) as [He|He|He]; [|discriminate Hlt|].
    - subst ey. rewrite Z.min_id, Z.sub_diag, Z.pow_0_r.
      rewrite Pos.compare_cont_spec in Hlt.
      destruct (Pos.compare_spec mx my) as [Hm|Hm|Hm];
        cbn [Pos.switch_Eq] in Hlt; [|discriminate Hlt|].
      + subst. lia.
      + apply Pos2Z.pos_lt_pos in Hm. lia.
    - rewrite Z.min_r, Z.sub_diag, Z.pow_0_r by lia.
      rewrite (Hnx ltac:(lia)) in Hlx.
      assert (H2 : 2 * 2 ^ (53 - 1) = 2 ^ 53) by reflexivity.
      assert (Hp : 2 <= 2 ^ (ex - ey)).
      { change 2 with (2 ^ 1) at 1. apply Z.pow_le_mono_r; lia. }
      nia. }
  set (D := Z.pos (fst (shl_align mx ex (Z.min ex ey)))
            - Z.pos (fst (shl_align my ey (Z.min ex ey)))) in *.
  clearbody D. destruct D as [|d|d]; [exact I| |lia].
  cbn [binary_normalize]. apply binary_round_not_negative.
Qed.

Lemma not_negative_stored x :
  not_negative x -> js_le (VNum (of_Z 0)) (json_number (VNum x)) = true.
Proof. by destruct x as [[]|[]| |[] m e]. Qed.

Lemma difference_stored_not_negative b a :
  valid_binary prec emax b = true ->
  valid_binary prec emax a = true ->
  SFleb a (of_Z 0) = false ->
  SFltb b a = false ->
  js_le (VNum (of_Z 0)) (json_number (VNum (SFsub prec emax b a))) = true.
Proof.
  intros Hb Ha Hpos Hlt.
  destruct a as [sa|sa| |sa ma ea]; [by destruct sa| | |].
  - destruct sa; [done|]. by destruct b as [[]|[]| |[] m e].
  - by destruct b as [[]|[]| |[] m e].
  - destruct sa; [done|].
    destruct b as [sb|sb| |sb mb eb]; [by destruct sb|by destruct sb|done|].
    destruct sb; [done|].
    by apply not_negative_stored, SFsub_not_negative.
Qed.

(** X16. No overdraft: when a transfer goes through, from a page whose
    sender balance and amount are doubles (as [JSON.parse] and [parseFloat]
    give them), the balance stored for the sender afterwards is not below
    zero and is not NaN. *)
Theorem transfer_no_overdraft to_field amount_ now pg ls pg' ls' s :
  transferForm_onsubmit to_field amount_ now pg ls = (Reload, pg', ls') ->
  page_users pg !! page_session pg = Some s ->
  valid_binary prec emax (ToNumber (balance s)) = true ->
  valid_binary prec emax amount_ = true ->
  exists s',
    stored ls' !! page_session pg = Some s' /\
    js_le (VNum (of_Z 0)) (balance s') = true.
Proof.
  intros Htr Hs Hvb Hva.
  apply transfer_success in Htr
    as (s0 & r & Hs0 & Hr & Hne & Hpos & _ & Hlt & _ & Hus & ->).
  rewrite Hs in Hs0. injection Hs0 as <-.
  rewrite stored_setUsers, Hus, lookup_fmap.
  rewrite lookup_insert_ne, lookup_insert_eq by done.
  eexists. split; [reflexivity|]. cbn [json_user balance push set_balance].
  unfold js_sub. cbn [ToNumber].
  by apply difference_stored_not_negative.
Qed.

Lemma transfer_no_overdraft_witness :
  exists s',
    stored (snd (transferForm_onsubmit (js "bob") (of_Z 1000) noon
                   {| page_users := two_users; page_session := js "alice" |}
                   two_users_storage)) !! js "alice" = Some s' /\
    js_le (VNum (of_Z 0)) (balance s') = true.
Proof.
  apply (transfer_no_overdraft (js "bob") (of_Z 1000) noon
           {| page_users := two_users; page_session := js "alice" |}
           two_users_storage
           (snd (fst (transferForm_onsubmit (js "bob") (of_Z 1000) noon
                        {| page_users := two_users; page_session := js "alice" |}
                        two_users_storage)))
           _ (account "YQ==" 1000)).
  - vm_compute. reflexivity.
  - vm_compute. reflexivity.
  - vm_compute. reflexivity.
  - vm_compute. reflexivity.
Defined.

(** ** What stays true whatever happens *)

Lemma step_keeps_sane w ev :
  sane w -> sane (snd (step w ev)).
Proof.
  intros Hsane. pose proof Hsane as (Hp & Hk & Hpage).
  destruct ev; cbn [step].
  - destruct (registerForm_onsubmit _ _ _ _ _ _) as [out1 ls1] eqn:Hreg.
    apply register_result in Hreg. cbn [snd].
    destruct out1; try (subst ls1; exact Hsane).
    destruct Hreg as (encoded & Hnew & ->).
    apply sane_fresh; [done|].
    intros name [= <-] _. rewrite stored_setSession, stored_setUsers.
    by rewrite lookup_fmap, lookup_insert_eq.
  - destruct (loginForm_onsubmit _ _ _) as [out1 ls1] eqn:Hlog.
    apply login_result in Hlog. cbn [snd].
    destruct out1; try (subst ls1; exact Hsane).
    destruct Hlog as (Hname & ->).
    apply sane_fresh; [split; [apply Hp|done]|].
    by intros name [= <-] _.
  - destruct (dashboard (storage w)) as [url|pg v|e] eqn:Hd; cbn [snd].
    + by apply sane_closed.
    + replace (Some pg) with (open_dashboard (storage w))
        by (unfold open_dashboard; by rewrite Hd).
      by apply sane_fresh.
    + by apply sane_closed.
  - destruct (dash w) as [pg|] eqn:Hdash; [|exact Hsane].
    destruct (Hpage pg eq_refl) as [Hsess Hdom].
    destruct (transferForm_onsubmit _ _ _ _ _) as [[out1 pg1] ls1] eqn:Htr.
    apply transfer_page in Htr as (Hs1 & Happ & Hfail & Hok). cbn [snd].
    assert (out1 = Reload \/ out1 ≠ Reload) as [->|Hout]
      by (destruct out1; (by left) || (by right)).
    + rewrite (Hok eq_refl). apply sane_fresh.
      * split; [done|apply Hp].
      * intros name Hname Hne. rewrite stored_setUsers, lookup_fmap.
        apply fmap_is_Some. apply (appended_is_Some _ _ _ Happ).
        by apply Hdom, Hk.
    + rewrite (Hfail Hout).
      assert (Hsane1 : sane {| storage := storage w; dash := Some pg1 |}).
      { repeat split; [apply Hp..|done| |]; cbn [dash storage] in *;
          injection H as <-.
        - rewrite Hs1. by apply (appended_is_Some _ _ _ Happ).
        - intros k Hk'. by apply (appended_is_Some _ _ _ Happ), Hdom. }
      destruct out1; try done.
  - destruct (dash w) as [pg|] eqn:Hdash; [|exact Hsane]. cbn [snd].
    apply sane_closed; [split; [apply Hp|done]|].
    intros name [=].
  - cbn [snd]. by apply sane_closed.
Qed.

Lemma run_keeps_sane evs : forall w, sane w -> sane (snd (run w evs)).
Proof.
  induction evs as [|ev evs IH]; intros w Hsane; cbn [run]; [done|].
  pose proof (step_keeps_sane w ev Hsane) as Hsane1.
  destruct (step w ev) as [out w1]. cbn [snd] in Hsane1.
  specialize (IH w1 Hsane1).
  destruct (run w1 evs) as [outs w2]. exact IH.
Qed.

(** X17. From an empty storage, after any events whatever (those that end
    in an exception included), both keys still hold JSON, the stored
    session, when there is one, names a user with a record, and so opening
    the dashboard does not throw (it renders or redirects) and neither does
    the admin form. *)
Theorem reachable_tab_is_sane evs :
  let w := snd (run {| storage := empty_storage; dash := None |} evs) in
  parseable (storage w) /\
  session_known (storage w) /\
  uncaught (fst (step w OpenDashboard)) = false /\
  forall pass, uncaught (fst (step w (AdminLogin pass))) = false.
Proof.
  cbv zeta.
  pose proof (run_keeps_sane evs _ sane_empty) as Hsane.
  set (w := snd (run _ evs)) in *.
  pose proof Hsane as (Hp & Hk & _).
  repeat split; try apply Hp; [done| |].
  - cbn [step].
    pose proof (fun e => dashboard_no_crash (storage w) e Hp Hk) as Hno.
    destruct (dashboard (storage w)) as [url|pg v|e]; [done|done|].
    by destruct (Hno e).
  - intros pass. cbn [step fst]. by apply admin_no_throw.
Qed.

(** ** Whole amounts

    Balances start as whole numbers and amounts are mostly typed as such:
    on whole numbers of at most 53 bits the double arithmetic of a transfer
    is the arithmetic of integers. *)

Lemma Zdigits2_unique z d :
  0 < z -> 2 ^ (d - 1) <= z < 2 ^ d -> Zdigits2 z = d.
Proof.
  intros Hz [Hlo Hhi]. destruct z as [|p|p]; [lia| |lia]. cbn [Zdigits2].
  pose proof (digits2_pos_lower p) as Hl. pose proof (digits2_pos_upper p) as Hu.
  set (D := Z.pos (digits2_pos p)) in *.
  assert (HD : 1 <= D) by (unfold D; lia).
  destruct (Z.lt_trichotomy D d) as [Hlt|[Heq|Hgt]]; [|done|].
  - assert (2 ^ D <= 2 ^ (d - 1)) by (apply Z.pow_le_mono_r; lia). lia.
  - assert (d < 0 \/ 0 <= d) as [Hneg|Hpos] by lia.
    + rewrite (Z.pow_neg_r 2 d) in Hhi by lia. lia.
    + assert (2 ^ d <= 2 ^ (D - 1)) by (apply Z.pow_le_mono_r; lia). lia.
Qed.

Lemma Zdigits2_bounds z :
  0 < z -> 1 <= Zdigits2 z /\ 2 ^ (Zdigits2 z - 1) <= z < 2 ^ Zdigits2 z.
Proof.
  intros Hz. destruct z as [|p|p]; [lia| |lia]. cbn [Zdigits2].
  pose proof (digits2_pos_lower p). pose proof (digits2_pos_upper p). lia.
Qed.

Lemma Zdigits2_mul_pow2 z j :
  0 < z -> 0 <= j -> Zdigits2 (z * 2 ^ j) = Zdigits2 z + j.
Proof.
  intros Hz Hj. destruct (Zdigits2_bounds z Hz) as (Hd & Hlo & Hhi).
  assert (Hp : 0 < 2 ^ j) by (apply Z.pow_pos_nonneg; lia).
  apply Zdigits2_unique; [nia|].
  replace (Zdigits2 z + j - 1) with (Zdigits2 z - 1 + j) by lia.
  rewrite !Z.pow_add_r by lia. nia.
Qed.

Lemma shr_1_double q :
  0 <= q ->
  shr_1 (Build_shr_record (2 * q) false false) = Build_shr_record q false false.
Proof. intros Hq. destruct q as [|q|q]; [done|done|lia]. Qed.

Lemma iter_shr_1_exact p : forall m,
  0 <= m ->
  SpecFloat.iter_pos shr_1 p (Build_shr_record (m * 2 ^ Z.pos p) false false)
  = Build_shr_record m false false.
Proof.
  induction p as [p IH|p IH|]; intros m Hm; cbn [SpecFloat.iter_pos].
  - assert (Hp : 0 < 2 ^ Z.pos p) by (apply Z.pow_pos_nonneg; lia).
    replace (m * 2 ^ Z.pos p~1) with (2 * (m * 2 ^ Z.pos p * 2 ^ Z.pos p)).
    2:{ assert (E : 2 ^ Z.pos p~1 = 2 * (2 ^ Z.pos p * 2 ^ Z.pos p)).
        { rewrite <- Z.pow_add_r, <- Z.pow_succ_r by lia. f_equal. lia. }
        rewrite E. lia. }
    rewrite shr_1_double by nia. rewrite IH by nia. by apply IH.
  - assert (Hp : 0 < 2 ^ Z.pos p) by (apply Z.pow_pos_nonneg; lia).
    replace (m * 2 ^ Z.pos p~0) with (m * 2 ^ Z.pos p * 2 ^ Z.pos p).
    2:{ assert (E : 2 ^ Z.pos p~0 = 2 ^ Z.pos p * 2 ^ Z.pos p).
        { rewrite <- Z.pow_add_r by lia. f_equal. lia. }
        rewrite E. lia. }
    rewrite IH by nia. by apply IH.
  - rewrite Z.pow_1_r. replace (m * 2) with (2 * m) by lia. by apply shr_1_double.
Qed.

Lemma shr_exact m k e :
  0 <= m -> 0 <= k ->
  shr (Build_shr_record (m * 2 ^ k) false false) e k
  = (Build_shr_record m false false, e + k).
Proof.
  intros Hm Hk. destruct k as [|p|p]; [|by cbn; rewrite iter_shr_1_exact|lia].
  cbn. do 2 f_equal; lia.
Qed.

(** Rounding a mantissa whose low bits are zero loses nothing. *)
Lemma binary_round_aux_whole m k e :
  0 < m -> 0 <= k ->
  Zdigits2 m = 53 ->
  fexp prec emax (53 + (e + k)) = e + k ->
  e + k <= emax - prec ->
  binary_round_aux prec emax false (m * 2 ^ k) e loc_Exact
  = S754_finite false (Z.to_pos m) (e + k).
Proof.
  intros Hm Hk Hd Hfexp Hmax. unfold binary_round_aux, shr_fexp.
  rewrite Zdigits2_mul_pow2 by lia. rewrite Hd.
  replace (53 + k + e) with (53 + (e + k)) by lia. rewrite Hfexp.
  replace (e + k - e) with k by lia.
  change (shr_record_of_loc (m * 2 ^ k) loc_Exact)
    with (Build_shr_record (m * 2 ^ k) false false).
  rewrite shr_exact by lia.
  cbn [shr_m loc_of_shr_record round_nearest_even].
  rewrite Hd, Hfexp, Z.sub_diag.
  cbn [shr shr_record_of_loc shr_m].
  destruct m as [|p|p]; [lia| |lia].
  apply Z.leb_le in Hmax. by rewrite Hmax.
Qed.

Lemma shl_align_spec mx ex ez :
  snd (shl_align mx ex ez) = Z.min ex ez /\
  Z.pos (fst (shl_align mx ex ez)) = Z.pos mx * 2 ^ (ex - Z.min ex ez).
Proof.
  unfold shl_align. destruct (ez - ex) as [|d|d] eqn:Hd; cbn [fst snd].
  - rewrite Z.min_l by lia. rewrite Z.sub_diag. lia.
  - rewrite Z.min_l by lia. rewrite Z.sub_diag. lia.
  - rewrite Z.min_r by lia. split; [done|].
    rewrite pos_iter_xO. f_equal. f_equal. lia.
Qed.

(** The double of a whole number of at most 53 bits, however it was scaled
    before being normalised. *)
Lemma binary_normalize_whole z j :
  0 < z -> Zdigits2 z <= 53 -> 0 <= j ->
  binary_normalize prec emax (z * 2 ^ j) (- j) false
  = S754_finite false (Z.to_pos (z * 2 ^ (53 - Zdigits2 z))) (Zdigits2 z - 53).
Proof.
  intros Hz Hd Hj.
  destruct (Zdigits2_bounds z Hz) as (Hd1 & _).
  set (d := Zdigits2 z) in *.
  assert (Hpj : 0 < 2 ^ j) by (apply Z.pow_pos_nonneg; lia).
  assert (Hdig : Zdigits2 (z * 2 ^ j) = d + j) by (by apply Zdigits2_mul_pow2).
  destruct (z * 2 ^ j) as [|M|M] eqn:HM; [nia| |nia].
  cbn [binary_normalize]. unfold binary_round.
  cbn [Zdigits2] in Hdig. rewrite Hdig.
  replace (fexp prec emax (d + j + - j)) with (d - 53)
    by (unfold fexp, emin, prec, emax; lia).
  destruct (shl_align_spec M (- j) (d - 53)) as [Hsnd Hfst].
  destruct (shl_align M (- j) (d - 53)) as [mz ez]. cbn [fst snd] in Hsnd, Hfst.
  set (m1 := z * 2 ^ (53 - d)).
  assert (Hm1 : 0 < m1).
  { unfold m1. assert (0 < 2 ^ (53 - d)) by (apply Z.pow_pos_nonneg; lia). nia. }
  assert (Hk : 0 <= d - 53 - ez) by lia.
  assert (Hmz : Z.pos mz = m1 * 2 ^ (d - 53 - ez)).
  { rewrite Hfst, <- Hsnd, <- HM. unfold m1.
    rewrite <- !Z.mul_assoc, <- !Z.pow_add_r by lia. do 2 f_equal. lia. }
  rewrite Hmz.
  rewrite (binary_round_aux_whole m1 (d - 53 - ez) ez); try lia.
  - do 2 f_equal. lia.
  - unfold m1. rewrite Zdigits2_mul_pow2 by lia. fold d. lia.
  - unfold fexp, emin, prec, emax. lia.
  - unfold prec, emax. lia.
Qed.

Lemma of_Z_whole z :
  0 < z -> Zdigits2 z <= 53 ->
  of_Z z = S754_finite false (Z.to_pos (z * 2 ^ (53 - Zdigits2 z))) (Zdigits2 z - 53).
Proof.
  intros Hz Hd. unfold of_Z.
  pose proof (binary_normalize_whole z 0 Hz Hd ltac:(lia)) as H.
  rewrite Z.pow_0_r, Z.mul_1_r in H. exact H.
Qed.

Lemma Zdigits2_53 z : 0 <= z < 2 ^ 53 -> Zdigits2 z <= 53.
Proof. intros. apply Zdigits2_le; lia. Qed.

(** Adding two whole numbers is exact as long as the sum keeps within 53
    bits. *)
Lemma SFadd_whole x y :
  0 <= x -> 0 <= y -> x + y < 2 ^ 53 ->
  SFadd prec emax (of_Z x) (of_Z y) = of_Z (x + y).
Proof.
  intros Hx Hy Hsum.
  assert (x = 0 \/ 0 < x) as [->|Hx0] by lia.
  { change (of_Z 0) with (S754_zero false). rewrite Z.add_0_l.
    assert (y = 0 \/ 0 < y) as [->|Hy0] by lia; [done|].
    rewrite (of_Z_whole y) by (try apply Zdigits2_53; lia). done. }
  assert (y = 0 \/ 0 < y) as [->|Hy0] by lia.
  { change (of_Z 0) with (S754_zero false). rewrite Z.add_0_r.
    rewrite (of_Z_whole x) by (try apply Zdigits2_53; lia). done. }
  pose proof (Zdigits2_53 x ltac:(lia)) as Hdx.
  pose proof (Zdigits2_53 y ltac:(lia)) as Hdy.
  pose proof (Zdigits2_53 (x + y) ltac:(lia)) as Hds.
  destruct (Zdigits2_bounds x Hx0) as (Hdx1 & _).
  destruct (Zdigits2_bounds y Hy0) as (Hdy1 & _).
  rewrite (of_Z_whole x), (of_Z_whole y), (of_Z_whole (x + y)) by lia.
  cbn [SFadd cond_Zopp].
  set (dx := Zdigits2 x) in *. set (dy := Zdigits2 y) in *.
  set (ez := Z.min (dx - 53) (dy - 53)).
  rewrite !shl_align_fst by lia.
  rewrite !Z2Pos.id.
  2,3: match goal with |- 0 < ?a * 2 ^ ?b =>
         assert (0 < 2 ^ b) by (apply Z.pow_pos_nonneg; lia); nia end.
  replace (x * 2 ^ (53 - dx) * 2 ^ (dx - 53 - ez)
           + y * 2 ^ (53 - dy) * 2 ^ (dy - 53 - ez))
    with ((x + y) * 2 ^ (- ez)).
  2:{ rewrite <- !Z.mul_assoc, <- !Z.pow_add_r by lia.
      replace (53 - dx + (dx - 53 - ez)) with (- ez) by lia.
      replace (53 - dy + (dy - 53 - ez)) with (- ez) by lia. lia. }
  replace ez with (- - ez) at 2 by lia.
  apply binary_normalize_whole; lia.
Qed.

Lemma SFsub_whole x y :
  0 <= y <= x -> x < 2 ^ 53 ->
  SFsub prec emax (of_Z x) (of_Z y) = of_Z (x - y).
Proof.
  intros Hy Hx.
  assert (y = 0 \/ 0 < y) as [->|Hy0] by lia.
  { change (of_Z 0) with (S754_zero false). rewrite Z.sub_0_r.
    assert (x = 0 \/ 0 < x) as [->|Hx0] by lia; [done|].
    rewrite (of_Z_whole x) by (try apply Zdigits2_53; lia). done. }
  assert (Hx0 : 0 < x) by lia.
  pose proof (Zdigits2_53 x ltac:(lia)) as Hdx.
  pose proof (Zdigits2_53 y ltac:(lia)) as Hdy.
  destruct (Zdigits2_bounds x Hx0) as (Hdx1 & _).
  destruct (Zdigits2_bounds y Hy0) as (Hdy1 & _).
  rewrite (of_Z_whole x), (of_Z_whole y) by lia.
  cbn [SFsub cond_Zopp].
  set (dx := Zdigits2 x) in *. set (dy := Zdigits2 y) in *.
  set (ez := Z.min (dx - 53) (dy - 53)).
  rewrite !shl_align_fst by lia.
  rewrite !Z2Pos.id.
  2,3: match goal with |- 0 < ?a * 2 ^ ?b =>
         assert (0 < 2 ^ b) by (apply Z.pow_pos_nonneg; lia); nia end.
  replace (x * 2 ^ (53 - dx) * 2 ^ (dx - 53 - ez)
           - y * 2 ^ (53 - dy) * 2 ^ (dy - 53 - ez))
    with ((x - y) * 2 ^ (- ez)).
  2:{ rewrite <- !Z.mul_assoc, <- !Z.pow_add_r by lia.
      replace (53 - dx + (dx - 53 - ez)) with (- ez) by lia.
      replace (53 - dy + (dy - 53 - ez)) with (- ez) by lia. lia. }
  assert (x = y \/ y < x) as [->|Hlt] by lia.
  { rewrite Z.sub_diag. reflexivity. }
  pose proof (Zdigits2_53 (x - y) ltac:(lia)) as Hds.
  rewrite (of_Z_whole (x - y)) by lia.
  replace ez with (- - ez) at 2 by lia.
  apply binary_normalize_whole; lia.
Qed.

(** Comparing the doubles of two whole numbers compares the numbers. *)
Lemma SFltb_whole x y :
  0 <= x < 2 ^ 53 -> 0 <= y < 2 ^ 53 ->
  SFltb (of_Z x) (of_Z y) = (x <? y).
Proof.
  intros Hx Hy.
  assert (x = 0 \/ 0 < x) as [->|Hx0] by lia.
  { change (of_Z 0) with (S754_zero false).
    assert (y = 0 \/ 0 < y) as [->|Hy0] by lia; [done|].
    rewrite (of_Z_whole y) by (try apply Zdigits2_53; lia).
    symmetry. by apply Z.ltb_lt. }
  assert (y = 0 \/ 0 < y) as [->|Hy0] by lia.
  { change (of_Z 0) with (S754_zero false).
    rewrite (of_Z_whole x) by (try apply Zdigits2_53; lia).
    symmetry. apply Z.ltb_ge. lia. }
  pose proof (Zdigits2_53 x ltac:(lia)) as Hdx.
  pose proof (Zdigits2_53 y ltac:(lia)) as Hdy.
  destruct (Zdigits2_bounds x Hx0) as (Hdx1 & Hxl & Hxu).
  destruct (Zdigits2_bounds y Hy0) as (Hdy1 & Hyl & Hyu).
  rewrite (of_Z_whole x), (of_Z_whole y) by lia.
  set (dx := Zdigits2 x) in *. set (dy := Zdigits2 y) in *.
  unfold SFltb, SFcompare.
  destruct (Z.compare_spec (dx - 53) (dy - 53)) as [He|He|He].
  - assert (dy = dx) as -> by lia.
    rewrite Pos.compare_cont_spec. cbn [Pos.switch_Eq].
    assert (Hp : 0 < 2 ^ (53 - dx)) by (apply Z.pow_pos_nonneg; lia).
    rewrite <- Z2Pos.inj_compare by nia.
    destruct (Z.compare_spec (x * 2 ^ (53 - dx)) (y * 2 ^ (53 - dx))) as [Hc|Hc|Hc];
      symmetry; [apply Z.ltb_ge|apply Z.ltb_lt|apply Z.ltb_ge]; nia.
  - symmetry. apply Z.ltb_lt.
    assert (2 ^ dx <= 2 ^ (dy - 1)) by (apply Z.pow_le_mono_r; lia). lia.
  - symmetry. apply Z.ltb_ge.
    assert (2 ^ dy <= 2 ^ (dx - 1)) by (apply Z.pow_le_mono_r; lia). lia.
Qed.

Lemma units_of_Z z : 0 <= z < 2 ^ 53 -> units (of_Z z) = z * 2 ^ 1074.
Proof.
  intros Hz. assert (z = 0 \/ 0 < z) as [->|Hz0] by lia; [done|].
  pose proof (Zdigits2_53 z Hz) as Hd.
  destruct (Zdigits2_bounds z Hz0) as (Hd1 & _).
  rewrite (of_Z_whole z) by lia. cbn [units cond_Zopp].
  assert (Hp : 0 < 2 ^ (53 - Zdigits2 z)) by (apply Z.pow_pos_nonneg; lia).
  rewrite Z2Pos.id by nia. rewrite Z.shiftl_mul_pow2 by lia.
  rewrite <- Z.mul_assoc, <- Z.pow_add_r by lia. do 2 f_equal. lia.
Qed.

Lemma is_finite_of_Z z : 0 <= z < 2 ^ 53 -> is_finite (of_Z z) = true.
Proof.
  intros Hz. assert (z = 0 \/ 0 < z) as [->|Hz0] by lia; [done|].
  by rewrite (of_Z_whole z) by (try apply Zdigits2_53; lia).
Qed.

Lemma json_number_of_Z z :
  0 <= z < 2 ^ 53 -> json_number (VNum (of_Z z)) = VNum (of_Z z).
Proof.
  intros Hz. assert (z = 0 \/ 0 < z) as [->|Hz0] by lia; [done|].
  by rewrite (of_Z_whole z) by (try apply Zdigits2_53; lia).
Qed.

Lemma positive_amount_passes a :
  0 < a < 2 ^ 53 -> SFleb (of_Z a) (of_Z 0) || is_nan (of_Z a) = false.
Proof.
  intros Ha. by rewrite (of_Z_whole a) by (try apply Zdigits2_53; lia).
Qed.

(** X18. Between whole balances, a transfer of a whole amount [a] with
    [0 < a <= b] goes through and is exact: the sender's stored balance is
    the double of [b - a] and the recipient's the double of [c + a] (all
    within 53 bits), so the two balances add up to what they did. *)
Theorem transfer_whole_amounts to_field a now pg ls s r b c :
  page_users pg !! page_session pg = Some s ->
  page_users pg !! trim to_field = Some r ->
  trim to_field ≠ page_session pg ->
  balance s = VNum (of_Z b) ->
  balance r = VNum (of_Z c) ->
  0 < a <= b -> b < 2 ^ 53 -> 0 <= c -> c + a < 2 ^ 53 ->
  exists pg' ls' s' r',
    transferForm_onsubmit to_field (of_Z a) now pg ls = (Reload, pg', ls') /\
    stored ls' !! page_session pg = Some s' /\
    balance s' = VNum (of_Z (b - a)) /\
    stored ls' !! trim to_field = Some r' /\
    balance r' = VNum (of_Z (c + a)).
Proof.
  intros Hs Hr Hne Hbs Hbr Ha Hb Hc Hca.
  destruct (transferForm_onsubmit to_field (of_Z a) now pg ls)
    as [[out pg'] ls'] eqn:Htr.
  assert (out = Reload) as ->.
  { revert Htr. unfold transferForm_onsubmit.
    rewrite (get_own _ _ _ Hr). cbn [truthy negb].
    rewrite bool_decide_eq_false_2 by done.
    rewrite positive_amount_passes by lia.
    rewrite (get_own _ _ _ Hs), Hbs. unfold js_lt. cbn [ToNumber].
    rewrite SFltb_whole by lia.
    replace (b <? a) with false by (symmetry; apply Z.ltb_ge; lia).
    rewrite get_insert_ne, (get_own _ _ _ Hr) by done. by intros [= <- _ _]. }
  apply transfer_success in Htr
    as (s0 & r0 & Hs0 & Hr0 & _ & _ & _ & _ & _ & Hus & ->).
  rewrite Hs in Hs0. rewrite Hr in Hr0. simplify_eq.
  eexists _, _, _, _. split; [reflexivity|].
  rewrite stored_setUsers, Hus, !lookup_fmap.
  rewrite lookup_insert_eq.
  rewrite lookup_insert_ne, lookup_insert_eq by done.
  cbn [fmap option_fmap option_map json_user balance push set_balance].
  repeat split.
  - rewrite Hbs. unfold js_sub. cbn [ToNumber].
    rewrite SFsub_whole by lia. apply json_number_of_Z. lia.
  - rewrite Hbr. unfold js_add. cbn [ToNumber].
    rewrite SFadd_whole by lia. apply json_number_of_Z. lia.
Qed.

Lemma transfer_whole_amounts_witness :
  exists pg' ls' s' r',
    transferForm_onsubmit (js "bob") (of_Z 250) noon
      {| page_users := two_users; page_session := js "alice" |} two_users_storage
    = (Reload, pg', ls') /\
    stored ls' !! js "alice" = Some s' /\
    balance s' = VNum (of_Z (1000 - 250)) /\
    stored ls' !! trim (js "bob") = Some r' /\
    balance r' = VNum (of_Z (3000 + 250)).
Proof.
  apply (transfer_whole_amounts (js "bob") 250 noon
           {| page_users := two_users; page_session := js "alice" |}
           two_users_storage (account "YQ==" 1000) (account "Yg==" 3000)
           1000 3000).
  - vm_compute. reflexivity.
  - vm_compute. reflexivity.
  - vm_compute. discriminate.
  - reflexivity.
  - reflexivity.
  - lia.
  - reflexivity.
  - lia.
  - reflexivity.
Defined.

(** X19. Whole balances and a whole amount meet the exactness that the
    conservation of the sum asks of a transfer: neither the subtraction nor
    the addition loses anything. *)
Theorem whole_transfer_is_exact w to a pg s r b c :
  dash w = Some pg ->
  page_users pg !! page_session pg = Some s ->
  page_users pg !! trim to = Some r ->
  balance s = VNum (of_Z b) ->
  balance r = VNum (of_Z c) ->
  0 <= a <= b -> b < 2 ^ 53 -> 0 <= c -> c + a < 2 ^ 53 ->
  exact_transfer w to (of_Z a) = true.
Proof.
  intros Hdash Hs Hr Hbs Hbr Ha Hb Hc Hca. unfold exact_transfer.
  rewrite Hdash, Hs, Hr, Hbs, Hbr. cbn [ToNumber].
  rewrite SFsub_whole, SFadd_whole by lia.
  rewrite !is_finite_of_Z, !units_of_Z by lia. cbn [andb].
  apply andb_true_iff. split; apply Z.eqb_eq; lia.
Qed.

Lemma whole_transfer_is_exact_witness :
  exact_transfer alice_dashboard (js "bob") (of_Z 250) = true.
Proof.
  apply (whole_transfer_is_exact alice_dashboard (js "bob") 250
           {| page_users := two_users; page_session := js "alice" |}
           (account "YQ==" 1000) (account "Yg==" 3000) 1000 3000).
  - reflexivity.
  - vm_compute. reflexivity.
  - vm_compute. reflexivity.
  - reflexivity.
  - reflexivity.
  - lia.
  - reflexivity.
  - lia.
  - reflexivity.
Defined.
